(** * Catapult block scoring and notification dispatch

    A shallow embedding of
    - [src/catapult/chain/BlockScorer.cpp] (hit, score and target
      calculation, and the block hit predicate), and
    - [src/catapult/local/NotificationObserverAdapter.cpp] (the adapter that
      routes published notifications to an observer),
    followed by the properties proved about them.

    Unsigned machine integers are values of [Z] together with their
    wrap-around, written out wherever the C++ arithmetic is performed in a
    fixed width. *)

From Stdlib Require Import ZArith List Lia Bool String.
From Stdlib.Strings Require Import Byte.
Import ListNotations.
Local Open Scope Z_scope.

(** ** Fixed-width unsigned integers *)

Definition wrap (bits x : Z) : Z := x mod 2 ^ bits.

Definition uint32 (x : Z) : Z := wrap 32 x.
Definition uint64 (x : Z) : Z := wrap 64 x.
Definition uint128 (x : Z) : Z := wrap 128 x.

(** [std::numeric_limits<uint64_t>::max()] *)
Definition uint64_max : Z := 2 ^ 64 - 1.

(** The values a [uint64_t] can hold. *)
Definition is_uint64 (x : Z) : Prop := 0 <= x < 2 ^ 64.

(** ** Collaborators from [catapult/utils] *)

Module utils.

(** Modelled from the spec: [utils::Log2] of IntegerMath.h, which is not
    among the sources.  [NumLeadingZeros] uses it on a nonzero byte so that
    [7 - Log2 byte] is the position of the first nonzero bit of that byte:
    the index of the highest set bit. *)
Definition Log2 (value : Z) : Z := Z.log2 value.

(** Modelled from the spec: [utils::TimeSpan], which is not among the
    sources.  A time span is a 64-bit count of milliseconds; [seconds] is the
    number of whole seconds (the source's comment in [CalculateScore] reads
    [(t(1) - t(0)) / MS_In_S]), and [FromDifference] subtracts two timestamps
    in 64-bit unsigned arithmetic. *)
Record TimeSpan : Set := FromMilliseconds { millis : Z }.

Definition FromDifference (finish start : Z) : TimeSpan :=
  FromMilliseconds (uint64 (finish - start)).

Definition seconds (span : TimeSpan) : Z := millis span / 1000.

(** Modelled from the spec: [utils::Log2TimesPowerOfTwo] (the spec's
    FixedPointLog2), which is not among the sources: an integer
    approximation of [log2 value * 2^n] obtained with integer operations
    only.  The integer part is [Log2 value]; the [n] fractional bits come
    from squaring the normalised mantissa [n] times at 64-bit precision.
    The formula of [CalculateHit] below is stated for an arbitrary kernel;
    the order of the hits of two windows is proved for this one, which also
    serves to evaluate the properties on concrete hashes. *)
Fixpoint Log2Fraction (n : nat) (mantissa acc : Z) : Z :=
  match n with
  | O => acc
  | S n' =>
      let square := Z.shiftr (mantissa * mantissa) 63 in
      if 2 ^ 64 <=? square
      then Log2Fraction n' (Z.shiftr square 1) (2 * acc + 1)
      else Log2Fraction n' square (2 * acc)
  end.

Definition Log2TimesPowerOfTwo (value n : Z) : Z :=
  let integral := Log2 value in
  uint64 (Z.shiftl integral n
          + Log2Fraction (Z.to_nat n) (Z.shiftl value (63 - integral)) 0).

End utils.

(** ** Data shared by the chain functions *)

Module model.

(** A [Hash256] is an array of [Hash256_Size] bytes. *)
Definition Hash256 : Set := list byte.
Definition Hash256_Size : Z := 32.

(** [Key] of the signer; only passed on to the importance lookup. *)
Definition Key : Set := list byte.

(** The fields of [model::Block] that BlockScorer.cpp reads.  [Timestamp]
    (milliseconds), [Difficulty] and [Height] are 64-bit unsigned values. *)
Record Block : Set := {
  Signer : Key;
  Height : Z;
  Timestamp : Z;
  Difficulty : Z
}.

(** The fields of [model::BlockChainConfiguration] that BlockScorer.cpp
    reads. *)
Record BlockChainConfiguration : Set := {
  BlockGenerationTargetTime : utils.TimeSpan;
  BlockTimeSmoothingFactor : Z;
  TotalChainImportance : Z
}.

End model.

(** ** BlockScorer.cpp *)

Module chain.
Import model.

Definition Two_To_54 : Z := Z.shiftl 1 54.

Module GenerationHashInfo.
Record t : Set := { Value : Z; NumLeadingZeros : Z }.
End GenerationHashInfo.

(** [generationHash[index]] as an unsigned number. *)
Definition byte_at (hash : Hash256) (index : Z) : Z :=
  Z.of_N (Byte.to_N (nth (Z.to_nat index) hash x00)).

Definition TimeBetweenBlocks (parent block : Block) : utils.TimeSpan :=
  utils.FromDifference (Timestamp block) (Timestamp parent).

(** The loop of [NumLeadingZeros]: [count] iterations are left and [i] is
    the loop index. *)
Fixpoint NumLeadingZeros_loop (generationHash : Hash256) (count : nat) (i : Z) : Z :=
  match count with
  | O => 256
  | S count' =>
      if negb (byte_at generationHash i =? 0)
      then uint32 (8 * i + 7 - utils.Log2 (byte_at generationHash i))
      else NumLeadingZeros_loop generationHash count' (i + 1)
  end.

Definition NumLeadingZeros (generationHash : Hash256) : Z :=
  NumLeadingZeros_loop generationHash (Z.to_nat Hash256_Size) 0.

(** [*reinterpret_cast<const uint32_t*>(hash.data() + index)] on a
    little-endian host. *)
Definition load_uint32 (hash : Hash256) (index : Z) : Z :=
  byte_at hash index
  + Z.shiftl (byte_at hash (index + 1)) 8
  + Z.shiftl (byte_at hash (index + 2)) 16
  + Z.shiftl (byte_at hash (index + 3)) 24.

(** [__builtin_bswap32] / [_byteswap_ulong] *)
Definition BSWAP (val : Z) : Z :=
  Z.shiftl (Z.land val 255) 24
  + Z.shiftl (Z.land (Z.shiftr val 8) 255) 16
  + Z.shiftl (Z.land (Z.shiftr val 16) 255) 8
  + Z.land (Z.shiftr val 24) 255.

Definition ExtractFromHashAtPosition (hash : Hash256) (index : Z) : Z :=
  BSWAP (load_uint32 hash index).

Definition ExtractGenerationHashInfo (generationHash : Hash256) : GenerationHashInfo.t :=
  let numLeadingZeros := NumLeadingZeros generationHash in
  if 224 <=? numLeadingZeros
  then {| GenerationHashInfo.Value :=
            ExtractFromHashAtPosition generationHash (Hash256_Size - 4);
          GenerationHashInfo.NumLeadingZeros := 224 |}
  else
    let quotient := numLeadingZeros / 8 in
    let remainder := numLeadingZeros mod 8 in
    let value := ExtractFromHashAtPosition generationHash quotient in
    let value := uint32 (Z.shiftl value remainder) in
    let value :=
      uint32 (value + Z.shiftr (byte_at generationHash (quotient + 4)) (8 - remainder)) in
    {| GenerationHashInfo.Value := value;
       GenerationHashInfo.NumLeadingZeros := numLeadingZeros |}.

(** [CalculateScore]: the subtraction is between two [uint64_t] values. *)
Definition CalculateScore (parentBlock currentBlock : Block) : Z :=
  if Timestamp currentBlock <=? Timestamp parentBlock
  then 0
  else
    let timeDiff := TimeBetweenBlocks parentBlock currentBlock in
    uint64 (Difficulty currentBlock - utils.seconds timeDiff).

(** The order on what a target calculation yields: both calls raise, or
    both return and the first target is not above the second. *)
Definition target_le (first second : option Z) : Prop :=
  match first, second with
  | Some t1, Some t2 => t1 <= t2
  | None, None => True
  | _, _ => False
  end.

Section BlockScorer.

(** [utils::Log2TimesPowerOfTwo], declared in IntegerMath.h and returning a
    [uint64_t]. *)
Variable Log2TimesPowerOfTwo : Z -> Z -> Z.

(** [BlockTarget] is declared in BlockScorer.h, which is not among the
    sources: an unsigned integer of [BlockTarget_bits] bits (the spec: 128
    bits or wider) whose arithmetic wraps and whose division by zero
    raises. *)
Variable BlockTarget_bits : Z.

(** The floating-point part of [GetMultiplier], taken as given:
    [ScaledSmoother factor timeDiff targetTime] stands for
    [Two_To_54 * std::min(std::exp(factor / 1000.0 *
     static_cast<int64_t>(timeDiff - targetTime) / targetTime), 100.0)]
    before its conversion to [uint64_t]. *)
Variable ScaledSmoother : Z -> Z -> Z -> Z.

Definition BlockTarget (x : Z) : Z := wrap BlockTarget_bits x.

Definition BlockTarget_mul (target x : Z) : Z := BlockTarget (target * x).

Definition BlockTarget_shl (target n : Z) : Z := BlockTarget (Z.shiftl target n).

(** [target /= x] raises on [x = 0]. *)
Definition BlockTarget_div (target x : Z) : option Z :=
  if x =? 0 then None else Some (target / x).

Definition CalculateHit (generationHash : Hash256) : Z :=
  let hashInfo := ExtractGenerationHashInfo generationHash in
  if 0 =? GenerationHashInfo.Value hashInfo
  then uint64_max
  else if 0xFFFFFFFF =? GenerationHashInfo.Value hashInfo
  then 0
  else
    let logValue := Log2TimesPowerOfTwo (GenerationHashInfo.Value hashInfo) 54 in
    let result :=
      uint128
        (uint64 (uint32 (32 + GenerationHashInfo.NumLeadingZeros hashInfo) * Two_To_54
                 - logValue)) in
    let result := uint128 (result * 10000000000000000) / 14426950408889634 in
    uint64 result.

Definition GetMultiplier (timeDiff : Z) (config : BlockChainConfiguration) : Z :=
  let targetTime := utils.seconds (BlockGenerationTargetTime config) in
  let scaled :=
    if negb (0 =? BlockTimeSmoothingFactor config)
    then uint64 (ScaledSmoother (BlockTimeSmoothingFactor config) timeDiff targetTime)
    else Two_To_54 in
  let target := BlockTarget scaled in
  BlockTarget_shl target 10.

Definition CalculateTarget (timeSpan : utils.TimeSpan) (difficulty signerImportance : Z)
    (config : BlockChainConfiguration) : option Z :=
  let target := BlockTarget (utils.seconds timeSpan) in
  let target := BlockTarget_mul target (BlockTarget signerImportance) in
  let target := BlockTarget_mul target (GetMultiplier (utils.seconds timeSpan) config) in
  let target := BlockTarget_mul target (BlockTarget 8999999998) in
  match BlockTarget_div target (BlockTarget (TotalChainImportance config)) with
  | None => None
  | Some target => BlockTarget_div target (BlockTarget difficulty)
  end.

(** The overload of [CalculateTarget] taking the two blocks. *)
Definition CalculateTarget_blocks (parentBlock currentBlock : Block) (signerImportance : Z)
    (config : BlockChainConfiguration) : option Z :=
  if Timestamp currentBlock <=? Timestamp parentBlock
  then Some (BlockTarget 0)
  else
    let timeDiff := TimeBetweenBlocks parentBlock currentBlock in
    CalculateTarget timeDiff (Difficulty currentBlock) signerImportance config.

(** [BlockHitPredicate]: the object holds [m_config] and
    [m_importanceLookup]; [operator()] is applied to the two blocks and the
    generation hash.  [None] is a raised division by zero. *)
Record BlockHitPredicate_t : Type := {
  m_config : BlockChainConfiguration;
  m_importanceLookup : Key -> Z -> Z
}.

Definition BlockHitPredicate (self : BlockHitPredicate_t) (parentBlock block : Block)
    (generationHash : Hash256) : option bool :=
  let importance := m_importanceLookup self (Signer block) (Height block) in
  let hit := CalculateHit generationHash in
  match CalculateTarget_blocks parentBlock block importance (m_config self) with
  | None => None
  | Some target => Some (hit <? target)
  end.

Record BlockHitContext : Set := {
  ctx_Signer : Key;
  ctx_Height : Z;
  ctx_ElapsedTime : utils.TimeSpan;
  ctx_Difficulty : Z;
  ctx_GenerationHash : Hash256
}.

Definition BlockHitPredicate_context (self : BlockHitPredicate_t) (context : BlockHitContext)
    : option bool :=
  let importance := m_importanceLookup self (ctx_Signer context) (ctx_Height context) in
  let hit := CalculateHit (ctx_GenerationHash context) in
  match CalculateTarget (ctx_ElapsedTime context) (ctx_Difficulty context) importance
          (m_config self) with
  | None => None
  | Some target => Some (hit <? target)
  end.

End BlockScorer.

End chain.

(** ** Observers and notifications *)

Module observers.

(** The notification channels of [model::NotificationChannel] that the spec
    names; a notification's type carries the set of channels it is raised
    on. *)
Inductive NotificationChannel : Set := Validator | Observer.

Section Effects.

Variables Failure State : Type.

(** How a call ended: it returned, or it raised a failure. *)
Inductive Outcome : Type :=
| Returned
| Raised (failure : Failure).

(** A [void] call that may change the state reachable through the observer
    context and may raise.  The state changed before a failure was raised
    stays changed: there is no rollback at this layer. *)
Definition Effect : Type := State -> State * Outcome.

Definition skip : Effect := fun s => (s, Returned).

Definition and_then (first next : Effect) : Effect :=
  fun s =>
    match first s with
    | (s', Returned) => next s'
    | (s', Raised failure) => (s', Raised failure)
    end.

Fixpoint for_each {A : Type} (items : list A) (body : A -> Effect) : Effect :=
  match items with
  | [] => skip
  | item :: rest => and_then (body item) (for_each rest body)
  end.

End Effects.

Arguments Returned {Failure}.
Arguments Raised {Failure} failure.
Arguments skip {Failure State}.
Arguments and_then {Failure State} first next.
Arguments for_each {Failure State A} items body.

Section Interfaces.

Variables Notification ObserverContext Failure State : Type.

(** [observers::NotificationObserver]: [name()] and
    [notify(notification, context)]. *)
Record NotificationObserver : Type := {
  name : string;
  notify : Notification -> ObserverContext -> Effect Failure State
}.

(** [model::NotificationSubscriber]: [notify(notification)]. *)
Record NotificationSubscriber : Type := {
  subscriber_notify : Notification -> Effect Failure State
}.

End Interfaces.

Arguments name {Notification ObserverContext Failure State} _.
Arguments notify {Notification ObserverContext Failure State} _ _ _.
Arguments subscriber_notify {Notification Failure State} _ _.

End observers.

(** ** NotificationObserverAdapter.cpp *)

Module local.
Import observers.

Section NotificationObserverAdapter.

Variables WeakEntityInfo Notification NotificationType ObserverContext Failure : Type.

(** [notification.Type] *)
Variable Notification_Type : Notification -> NotificationType.

(** [IsSet(type, channel)] of NotificationType.h, not among the sources:
    whether the channel's bit is set in the notification type. *)
Variable IsSet : NotificationType -> NotificationChannel -> bool.

Section WithState.

Variable State : Type.

Record ObservingNotificationSubscriber : Type := {
  m_observer : NotificationObserver Notification ObserverContext Failure State;
  m_context : ObserverContext
}.

Definition ObservingNotificationSubscriber_notify (self : ObservingNotificationSubscriber)
    (notification : Notification) : Effect Failure State :=
  if negb (IsSet (Notification_Type notification) Observer)
  then skip
  else notify (m_observer self) notification (m_context self).

(** [ObservingNotificationSubscriber] as a [model::NotificationSubscriber]. *)
Definition as_subscriber (self : ObservingNotificationSubscriber)
    : NotificationSubscriber Notification Failure State :=
  {| subscriber_notify := ObservingNotificationSubscriber_notify self |}.

(** Modelled from the spec: the notification publisher created by
    [CreateNotificationPublisher], which is not among the sources.  It
    decomposes an entity into an ordered sequence of notifications
    ([notifications_of]) and hands them to the subscriber one by one, in that
    order; a failure raised by the subscriber ends the publication. *)
Record NotificationPublisher : Type := {
  notifications_of : WeakEntityInfo -> list Notification
}.

Definition publish (self : NotificationPublisher) (entityInfo : WeakEntityInfo)
    (sub : NotificationSubscriber Notification Failure State) : Effect Failure State :=
  for_each (notifications_of self entityInfo) (subscriber_notify sub).

Record NotificationObserverAdapter_t : Type := {
  m_pObserver : NotificationObserver Notification ObserverContext Failure State;
  m_pPub : NotificationPublisher
}.

Definition NotificationObserverAdapter_name (self : NotificationObserverAdapter_t) : string :=
  name (m_pObserver self).

Definition NotificationObserverAdapter_notify (self : NotificationObserverAdapter_t)
    (entityInfo : WeakEntityInfo) (context : ObserverContext) : Effect Failure State :=
  let sub := {| m_observer := m_pObserver self; m_context := context |} in
  publish (m_pPub self) entityInfo (as_subscriber sub).

(** The observer being handed the notifications [delivered], one by one. *)
Definition observe (observer : NotificationObserver Notification ObserverContext Failure State)
    (context : ObserverContext) (delivered : list Notification) : Effect Failure State :=
  for_each delivered (fun notification => notify observer notification context).

(** An observer that also keeps, next to its state, the list of the
    notifications it was called with. *)
Definition recording (observer : NotificationObserver Notification ObserverContext Failure State)
    : NotificationObserver Notification ObserverContext Failure (State * list Notification) :=
  {| name := name observer;
     notify := fun notification context '(s, log) =>
       let (s', outcome) := notify observer notification context s in
       ((s', log ++ [notification]), outcome) |}.

End WithState.

(** The notifications with which the adapter called its observer during
    [notify], read off a recording run. *)
Definition calls_of_notify {State : Type}
    (observer : NotificationObserver Notification ObserverContext Failure State)
    (publisher : NotificationPublisher)
    (entityInfo : WeakEntityInfo) (context : ObserverContext) (s : State) : list Notification :=
  snd (fst (NotificationObserverAdapter_notify (State * list Notification)
              {| m_pObserver := recording State observer; m_pPub := publisher |}
              entityInfo context (s, []))).

End NotificationObserverAdapter.

Arguments m_observer {Notification ObserverContext Failure State} _.
Arguments m_context {Notification ObserverContext Failure State} _.
Arguments ObservingNotificationSubscriber_notify
  {Notification NotificationType ObserverContext Failure} Notification_Type IsSet {State}
  self notification.
Arguments as_subscriber
  {Notification NotificationType ObserverContext Failure} Notification_Type IsSet {State} self.
Arguments notifications_of {WeakEntityInfo Notification} _ _.
Arguments publish {WeakEntityInfo Notification Failure State} self entityInfo sub.
Arguments m_pObserver {WeakEntityInfo Notification ObserverContext Failure State} _.
Arguments m_pPub {WeakEntityInfo Notification ObserverContext Failure State} _.
Arguments NotificationObserverAdapter_name
  {WeakEntityInfo Notification ObserverContext Failure State} self.
Arguments NotificationObserverAdapter_notify
  {WeakEntityInfo Notification NotificationType ObserverContext Failure}
  Notification_Type IsSet {State} self entityInfo context.
Arguments observe {Notification ObserverContext Failure State} observer context delivered.
Arguments recording {Notification ObserverContext Failure State} observer.
Arguments calls_of_notify
  {WeakEntityInfo Notification NotificationType ObserverContext Failure}
  Notification_Type IsSet {State} observer publisher entityInfo context s.

End local.

(** ** Concrete inputs

    Hashes, blocks, configurations and a small notification set-up on which
    the properties below are evaluated. *)

Module examples.
Import model.

Definition zero_hash : Hash256 := repeat x00 32.
Definition ones_hash : Hash256 := repeat xff 32.

(** First byte 0x80: no leading zero bit, window 0x80000000. *)
Definition high_hash : Hash256 := x80 :: repeat x00 31.

(** As [high_hash], with the window one higher. *)
Definition next_hash : Hash256 := [x80; x00; x00; x01] ++ repeat x00 28.

(** First bytes 0x01 0x80: seven leading zero bits, window 0xC0000000. *)
Definition low_hash : Hash256 := [x01; x80] ++ repeat x00 30.

Definition sample_hash : Hash256 := [x12; x34; x56; x78; x9a] ++ repeat x00 27.

Definition parent_block : Block :=
  {| Signer := []; Height := 1; Timestamp := 0; Difficulty := 100000000000000 |}.

(** Fifteen seconds after [parent_block]. *)
Definition child_block : Block :=
  {| Signer := []; Height := 2; Timestamp := 15000; Difficulty := 100000000000000 |}.

(** Not later than [parent_block]. *)
Definition stale_block : Block :=
  {| Signer := []; Height := 2; Timestamp := 0; Difficulty := 100000000000000 |}.

(** Sixty seconds after [parent_block], with a difficulty of ten. *)
Definition easy_block : Block :=
  {| Signer := []; Height := 2; Timestamp := 60000; Difficulty := 10 |}.

Definition config : BlockChainConfiguration :=
  {| BlockGenerationTargetTime := utils.FromMilliseconds 15000;
     BlockTimeSmoothingFactor := 0;
     TotalChainImportance := 8999999998000000 |}.

(** A configuration whose total chain importance is zero. *)
Definition config_without_importance : BlockChainConfiguration :=
  {| BlockGenerationTargetTime := utils.FromMilliseconds 15000;
     BlockTimeSmoothingFactor := 0;
     TotalChainImportance := 0 |}.

(** Smoothing is off in both configurations: this value is never read. *)
Definition unused_smoother (factor timeDiff targetTime : Z) : Z := 0.

Definition predicate (config : BlockChainConfiguration) (importance : Z)
    : chain.BlockHitPredicate_t :=
  {| chain.m_config := config; chain.m_importanceLookup := fun _ _ => importance |}.

(** Notifications: a type that is the set of channels as a bit mask
    (Validator 1, Observer 2) and a label. *)
Definition Notification : Set := Z * string.

Definition channel_bit (channel : observers.NotificationChannel) : Z :=
  match channel with
  | observers.Validator => 1
  | observers.Observer => 2
  end.

Definition IsSet (type : Z) (channel : observers.NotificationChannel) : bool :=
  negb (Z.land type (channel_bit channel) =? 0).

Definition N1 : Notification := (1, "N1"%string).
Definition N2 : Notification := (2, "N2"%string).
Definition N3 : Notification := (3, "N3"%string).

(** The publisher decomposes every entity into N1, N2, N3. *)
Definition publisher : local.NotificationPublisher unit Notification :=
  {| local.notifications_of := fun _ => [N1; N2; N3] |}.

(** An observer that counts its calls and never raises. *)
Definition counting_observer : observers.NotificationObserver Notification unit string nat :=
  {| observers.name := "counting"%string;
     observers.notify := fun _ _ count => (S count, observers.Returned) |}.

(** An observer that counts its calls and raises on N2. *)
Definition failing_observer : observers.NotificationObserver Notification unit string nat :=
  {| observers.name := "failing"%string;
     observers.notify := fun notification _ count =>
       if String.eqb (snd notification) "N2"
       then (S count, observers.Raised "rejected"%string)
       else (S count, observers.Returned) |}.

End examples.

(** ** The hash as a number *)

Module hashes.
Import model.

(** The [count] bytes from index [i] on, read as one number, most
    significant byte first. *)
Fixpoint be_value (hash : Hash256) (count : nat) (i : Z) : Z :=
  match count with
  | O => 0
  | S count' => chain.byte_at hash i * 2 ^ (8 * Z.of_nat count') + be_value hash count' (i + 1)
  end.

(** The 256-bit number a [Hash256] stands for in [CalculateHit]. *)
Definition Hash256_value (hash : Hash256) : Z := be_value hash 32 0.

End hashes.

(** ** plugins/txes/accountlink/src/validators/Results.h *)

Module validators.

(** The results [DEFINE_ACCOUNT_LINK_RESULT] defines, by their
    descriptions. *)
Inductive AccountLinkResult : Set :=
| Invalid_Action
| Link_Already_Exists
| Link_Does_Not_Exist
| Unlink_Data_Inconsistency
| Remote_Account_Ineligible
| Remote_Account_Signer_Not_Allowed
| Remote_Account_Participant_Not_Allowed.

(** The [CODE] each definition passes to [DEFINE_VALIDATION_RESULT]. *)
Definition code (result : AccountLinkResult) : Z :=
  match result with
  | Invalid_Action => 170
  | Link_Already_Exists => 172
  | Link_Does_Not_Exist => 173
  | Unlink_Data_Inconsistency => 176
  | Remote_Account_Ineligible => 177
  | Remote_Account_Signer_Not_Allowed => 178
  | Remote_Account_Participant_Not_Allowed => 179
  end.

End validators.

(** ** More concrete inputs *)

Module samples.
Import model.

(** Thirty zero bytes, then 0x01 0x02: the first set bit is in the last
    four bytes. *)
Definition tail_hash : Hash256 := repeat x00 30 ++ [x01; x02].

(** Sixteen leading zero bits, then the window of [examples.sample_hash]
    shifted by two bytes. *)
Definition deep_hash : Hash256 := [x00; x00; x12; x34; x56; x78; x9a] ++ repeat x00 25.

(** Five seconds after [examples.parent_block]. *)
Definition early_block : Block :=
  {| Signer := []; Height := 2; Timestamp := 5000; Difficulty := 100000000000000 |}.

(** Twenty minutes after [examples.parent_block], at a difficulty of one. *)
Definition overdue_block : Block :=
  {| Signer := []; Height := 2; Timestamp := 1200000; Difficulty := 1 |}.

(** A configuration whose block generation target time is one minute. *)
Definition slow_config : BlockChainConfiguration :=
  {| BlockGenerationTargetTime := utils.FromMilliseconds 60000;
     BlockTimeSmoothingFactor := 0;
     TotalChainImportance := 8999999998000000 |}.

Definition N4 : examples.Notification := (1, "N4"%string).

(** A publisher that raises two more notifications on the Validator
    channel only. *)
Definition chatty_publisher : local.NotificationPublisher unit examples.Notification :=
  {| local.notifications_of := fun _ => [N4; examples.N1; examples.N2; N4; examples.N3] |}.

(** A publisher of notifications on the Validator channel only. *)
Definition validator_publisher : local.NotificationPublisher unit examples.Notification :=
  {| local.notifications_of := fun _ => [N4; examples.N1] |}.

End samples.

(** ** One step of the modelled logarithm *)

Module kernel.

(** The bit one iteration of [utils.Log2Fraction] appends, and the
    mantissa it goes on with. *)
Definition next_bit (mantissa : Z) : Z :=
  if 2 ^ 64 <=? Z.shiftr (mantissa * mantissa) 63 then 1 else 0.

Definition next_mantissa (mantissa : Z) : Z :=
  if 2 ^ 64 <=? Z.shiftr (mantissa * mantissa) 63
  then Z.shiftr (Z.shiftr (mantissa * mantissa) 63) 1
  else Z.shiftr (mantissa * mantissa) 63.

End kernel.

(** Closes a goal on concrete inputs by running the definitions. *)
Ltac by_evaluation :=
  vm_compute; repeat split; first [reflexivity | discriminate | intro; discriminate].

(** * Properties *)

(** ** Fixed-width arithmetic *)

Lemma wrap_small (bits x : Z) : 0 <= x < 2 ^ bits -> wrap bits x = x.
Proof. intros Hx. unfold wrap. now apply Z.mod_small. Qed.

Lemma wrap_nonneg (bits x : Z) : 0 <= bits -> 0 <= wrap bits x < 2 ^ bits.
Proof.
  intros Hb. unfold wrap. apply Z.mod_pos_bound. now apply Z.pow_pos_nonneg.
Qed.

Lemma wrap_mul_l (bits x y : Z) : wrap bits (wrap bits x * y) = wrap bits (x * y).
Proof. unfold wrap. apply Zmult_mod_idemp_l. Qed.

Lemma wrap_mul_r (bits x y : Z) : wrap bits (x * wrap bits y) = wrap bits (x * y).
Proof. unfold wrap. apply Zmult_mod_idemp_r. Qed.

Lemma uint64_small (x : Z) : is_uint64 x -> uint64 x = x.
Proof. apply wrap_small. Qed.

Lemma uint64_range (x : Z) : is_uint64 (uint64 x).
Proof. apply wrap_nonneg. lia. Qed.

(** ** Reading the generation hash *)

Section HashWindow.
Import model chain.

Lemma byte_at_range (hash : Hash256) (index : Z) : 0 <= byte_at hash index < 256.
Proof.
  unfold byte_at.
  pose proof (Byte.to_N_bounded (nth (Z.to_nat index) hash x00)).
  lia.
Qed.

Lemma byte_at_zero (hash : Hash256) (index : Z) :
  byte_at hash index = 0 -> nth (Z.to_nat index) hash x00 = x00.
Proof.
  unfold byte_at. intros H.
  assert (Hn : Byte.to_N (nth (Z.to_nat index) hash x00) = 0%N) by lia.
  pose proof (Byte.of_to_N (nth (Z.to_nat index) hash x00)) as Hof.
  rewrite Hn in Hof. cbn in Hof. congruence.
Qed.

(** Swapping the bytes of a little-endian load reads the four bytes most
    significant first. *)
Lemma BSWAP_bytes (b0 b1 b2 b3 : Z) :
  0 <= b0 < 256 -> 0 <= b1 < 256 -> 0 <= b2 < 256 -> 0 <= b3 < 256 ->
  BSWAP (b0 + Z.shiftl b1 8 + Z.shiftl b2 16 + Z.shiftl b3 24)
  = b0 * 2 ^ 24 + b1 * 2 ^ 16 + b2 * 2 ^ 8 + b3.
Proof.
  intros H0 H1 H2 H3. unfold BSWAP.
  change 255 with (Z.ones 8).
  rewrite !Z.land_ones, !Z.shiftr_div_pow2, !Z.shiftl_mul_pow2 by lia.
  change (2 ^ 8) with 256; change (2 ^ 16) with 65536; change (2 ^ 24) with 16777216.
  Z.div_mod_to_equations. lia.
Qed.

Lemma ExtractFromHashAtPosition_bytes (hash : Hash256) (index : Z) :
  ExtractFromHashAtPosition hash index
  = byte_at hash index * 2 ^ 24 + byte_at hash (index + 1) * 2 ^ 16
    + byte_at hash (index + 2) * 2 ^ 8 + byte_at hash (index + 3).
Proof.
  unfold ExtractFromHashAtPosition, load_uint32.
  apply BSWAP_bytes; apply byte_at_range.
Qed.

Lemma ExtractFromHashAtPosition_range (hash : Hash256) (index : Z) :
  0 <= ExtractFromHashAtPosition hash index < 2 ^ 32.
Proof.
  rewrite ExtractFromHashAtPosition_bytes.
  pose proof (byte_at_range hash index).
  pose proof (byte_at_range hash (index + 1)).
  pose proof (byte_at_range hash (index + 2)).
  pose proof (byte_at_range hash (index + 3)).
  change (2 ^ 8) with 256; change (2 ^ 16) with 65536; change (2 ^ 24) with 16777216.
  change (2 ^ 32) with 4294967296. lia.
Qed.

(** The highest set bit of a nonzero byte is one of the bits 0..7. *)
Lemma Log2_byte (b : Z) :
  0 < b < 256 -> 0 <= utils.Log2 b <= 7 /\ 2 ^ utils.Log2 b <= b < 2 ^ (utils.Log2 b + 1).
Proof.
  intros Hb. unfold utils.Log2.
  pose proof (Z.log2_spec b ltac:(lia)) as Hspec.
  pose proof (Z.log2_nonneg b).
  assert (Z.log2 b < 8) by (apply Z.log2_lt_pow2; [lia | change (2 ^ 8) with 256; lia]).
  rewrite <- Z.add_1_r in Hspec. lia.
Qed.

(** What the loop of [NumLeadingZeros] returns: 256 when every byte it
    looks at is zero, and otherwise the bit position of the first set bit. *)
Lemma NumLeadingZeros_loop_spec (hash : Hash256) (count : nat) (i : Z) :
  0 <= i -> i + Z.of_nat count <= 32 ->
  (NumLeadingZeros_loop hash count i = 256
   /\ forall j, i <= j < i + Z.of_nat count -> byte_at hash j = 0)
  \/ (exists k, i <= k < i + Z.of_nat count
        /\ (forall j, i <= j < k -> byte_at hash j = 0)
        /\ byte_at hash k <> 0
        /\ NumLeadingZeros_loop hash count i = 8 * k + 7 - utils.Log2 (byte_at hash k)).
Proof.
  revert i. induction count as [|count IH]; intros i Hi Hend.
  - left. split; [reflexivity | intros j Hj; lia].
  - cbn [NumLeadingZeros_loop].
    destruct (Z.eqb_spec (byte_at hash i) 0) as [Hz | Hnz]; cbn [negb].
    + destruct (IH (i + 1)) as [[Hall Hzero] | (k & Hk & Hzero & Hbyte & Hval)]; try lia.
      * left. split; [exact Hall |].
        intros j Hj. destruct (Z.eq_dec j i) as [-> | Hne]; [exact Hz | apply Hzero; lia].
      * right. exists k. repeat split; try lia; try assumption.
        intros j Hj. destruct (Z.eq_dec j i) as [-> | Hne]; [exact Hz | apply Hzero; lia].
    + right. exists i. repeat split; try lia; try assumption.
      pose proof (byte_at_range hash i) as Hr.
      destruct (Log2_byte (byte_at hash i)) as [Hlog _]; [lia |].
      unfold uint32. apply wrap_small. change (2 ^ 32) with 4294967296. lia.
Qed.

Lemma NumLeadingZeros_spec (hash : Hash256) :
  (NumLeadingZeros hash = 256 /\ forall j, 0 <= j < 32 -> byte_at hash j = 0)
  \/ (exists k, 0 <= k < 32
        /\ (forall j, 0 <= j < k -> byte_at hash j = 0)
        /\ byte_at hash k <> 0
        /\ NumLeadingZeros hash = 8 * k + 7 - utils.Log2 (byte_at hash k)).
Proof.
  unfold NumLeadingZeros.
  destruct (NumLeadingZeros_loop_spec hash (Z.to_nat Hash256_Size) 0) as [H | H];
    try (cbn; lia); [left | right]; exact H.
Qed.

(** When the first set bit lies in the first 28 bytes, the window starts
    at that bit: its top bit is set, and neither the shift nor the addition
    of [ExtractGenerationHashInfo] overflows 32 bits. *)
Lemma ExtractGenerationHashInfo_window (hash : Hash256) :
  NumLeadingZeros hash < 224 ->
  GenerationHashInfo.NumLeadingZeros (ExtractGenerationHashInfo hash) = NumLeadingZeros hash
  /\ 2 ^ 31 <= GenerationHashInfo.Value (ExtractGenerationHashInfo hash) < 2 ^ 32.
Proof.
  intros Hlt. unfold ExtractGenerationHashInfo.
  destruct (Z.leb_spec 224 (NumLeadingZeros hash)) as [Hge | _]; [lia |].
  cbn [GenerationHashInfo.Value GenerationHashInfo.NumLeadingZeros].
  split; [reflexivity |].
  destruct (NumLeadingZeros_spec hash) as [[H256 _] | (k & Hk & _ & Hbyte & Hval)]; [lia |].
  pose proof (byte_at_range hash k) as Hb0.
  pose proof (byte_at_range hash (k + 1)) as Hb1.
  pose proof (byte_at_range hash (k + 2)) as Hb2.
  pose proof (byte_at_range hash (k + 3)) as Hb3.
  pose proof (byte_at_range hash (k + 4)) as Hb4.
  destruct (Log2_byte (byte_at hash k)) as [Hlog Hpow]; [lia |].
  set (l := utils.Log2 (byte_at hash k)) in *.
  assert (Hq : NumLeadingZeros hash / 8 = k) by (rewrite Hval; Z.div_mod_to_equations; lia).
  assert (Hr : NumLeadingZeros hash mod 8 = 7 - l) by (rewrite Hval; Z.div_mod_to_equations; lia).
  rewrite Hq, Hr, ExtractFromHashAtPosition_bytes.
  rewrite Z.shiftl_mul_pow2, Z.shiftr_div_pow2 by lia.
  unfold uint32, wrap.
  assert (Hl : l = 0 \/ l = 1 \/ l = 2 \/ l = 3 \/ l = 4 \/ l = 5 \/ l = 6 \/ l = 7) by lia.
  change (2 ^ 8) with 256; change (2 ^ 16) with 65536; change (2 ^ 24) with 16777216.
  change (2 ^ 31) with 2147483648; change (2 ^ 32) with 4294967296.
  destruct Hl as [Hl | [Hl | [Hl | [Hl | [Hl | [Hl | [Hl | Hl]]]]]]];
    rewrite Hl in *; cbn in Hpow |- *; Z.div_mod_to_equations; lia.
Qed.

(** When it lies in the last four bytes, or the hash is zero, the window
    is the last four bytes and the reported position is 224. *)
Lemma ExtractGenerationHashInfo_tail (hash : Hash256) :
  224 <= NumLeadingZeros hash ->
  GenerationHashInfo.NumLeadingZeros (ExtractGenerationHashInfo hash) = 224
  /\ GenerationHashInfo.Value (ExtractGenerationHashInfo hash)
     = ExtractFromHashAtPosition hash 28.
Proof.
  intros Hge. unfold ExtractGenerationHashInfo.
  destruct (Z.leb_spec 224 (NumLeadingZeros hash)) as [_ | Hlt]; [| lia].
  split; reflexivity.
Qed.

Lemma NumLeadingZeros_range (hash : Hash256) : 0 <= NumLeadingZeros hash <= 256.
Proof.
  destruct (NumLeadingZeros_spec hash) as [[H256 _] | (k & Hk & _ & Hbyte & Hval)]; [lia |].
  pose proof (byte_at_range hash k).
  destruct (Log2_byte (byte_at hash k)) as [Hlog _]; lia.
Qed.

Lemma hashInfo_range (hash : Hash256) :
  0 <= GenerationHashInfo.NumLeadingZeros (ExtractGenerationHashInfo hash) <= 224
  /\ 0 <= GenerationHashInfo.Value (ExtractGenerationHashInfo hash) < 2 ^ 32.
Proof.
  pose proof (NumLeadingZeros_range hash).
  destruct (Z.lt_ge_cases (NumLeadingZeros hash) 224) as [Hlt | Hge].
  - destruct (ExtractGenerationHashInfo_window hash Hlt) as [-> Hw].
    change (2 ^ 31) with 2147483648 in Hw. lia.
  - destruct (ExtractGenerationHashInfo_tail hash Hge) as [-> ->].
    pose proof (ExtractFromHashAtPosition_range hash 28). lia.
Qed.

(** A hash whose first byte is nonzero has at most seven leading zero
    bits. *)
Lemma NumLeadingZeros_first_byte (hash : Hash256) :
  byte_at hash 0 <> 0 -> 0 <= NumLeadingZeros hash <= 7.
Proof.
  intros Hfirst.
  destruct (NumLeadingZeros_spec hash) as [[_ Hzero] | (k & Hk & Hzero & Hbyte & Hval)].
  - exfalso. apply Hfirst, Hzero. lia.
  - assert (k = 0) as ->.
    { destruct (Z.eq_dec k 0) as [E | E]; [exact E |].
      exfalso. apply Hfirst, Hzero. lia. }
    pose proof (byte_at_range hash 0).
    destruct (Log2_byte (byte_at hash 0)) as [Hlog _]; lia.
Qed.

(** The window is zero exactly for the all-zero hash. *)
Lemma window_zero_iff (hash : Hash256) :
  List.length hash = 32%nat ->
  GenerationHashInfo.Value (ExtractGenerationHashInfo hash) = 0 <-> hash = repeat x00 32.
Proof.
  intros Hlen. split.
  - intros Hw.
    destruct (Z.lt_ge_cases (NumLeadingZeros hash) 224) as [Hlt | Hge].
    { destruct (ExtractGenerationHashInfo_window hash Hlt) as [_ Htop].
      change (2 ^ 31) with 2147483648 in Htop. lia. }
    destruct (ExtractGenerationHashInfo_tail hash Hge) as [_ Htail].
    rewrite Htail, ExtractFromHashAtPosition_bytes in Hw.
    pose proof (byte_at_range hash 28). pose proof (byte_at_range hash (28 + 1)).
    pose proof (byte_at_range hash (28 + 2)). pose proof (byte_at_range hash (28 + 3)).
    change (2 ^ 8) with 256 in Hw; change (2 ^ 16) with 65536 in Hw;
      change (2 ^ 24) with 16777216 in Hw.
    assert (Hall : forall j, 0 <= j < 32 -> byte_at hash j = 0).
    { intros j Hj.
      destruct (NumLeadingZeros_spec hash) as [[_ Hzero] | (k & Hk & Hzero & Hbyte & Hval)].
      - now apply Hzero.
      - pose proof (byte_at_range hash k).
        destruct (Log2_byte (byte_at hash k)) as [Hlog _]; [lia |].
        assert (28 <= k) by lia.
        assert (Hcases : j < k \/ j = 28 \/ j = 28 + 1 \/ j = 28 + 2 \/ j = 28 + 3) by lia.
        destruct Hcases as [Hjk | [-> | [-> | [-> | ->]]]]; [apply Hzero; lia | lia ..]. }
    apply (nth_ext _ _ x00 x00).
    + rewrite Hlen, repeat_length. reflexivity.
    + intros n Hn. rewrite nth_repeat.
      rewrite <- (Nat2Z.id n). apply byte_at_zero, Hall. lia.
  - intros ->. vm_compute. reflexivity.
Qed.

End HashWindow.

(** ** CalculateHit *)

(** Dividing by log2(e): the integer ratio shrinks its argument. *)
Lemma divide_by_log2e_le (x : Z) :
  0 <= x -> 0 <= x * 10000000000000000 / 14426950408889634 <= x.
Proof. intros Hx. Z.div_mod_to_equations. lia. Qed.

(** ... and tells apart arguments that differ by two or more. *)
Lemma divide_by_log2e_lt (x y : Z) :
  y + 2 <= x ->
  y * 10000000000000000 / 14426950408889634 < x * 10000000000000000 / 14426950408889634.
Proof. intros Hxy. Z.div_mod_to_equations. lia. Qed.

Section HitProperties.
Import model chain.

Variable Log2TimesPowerOfTwo : Z -> Z -> Z.

Local Abbreviation CalculateHit := (chain.CalculateHit Log2TimesPowerOfTwo).
Local Abbreviation hashInfo_Value hash :=
  (GenerationHashInfo.Value (ExtractGenerationHashInfo hash)).
Local Abbreviation hashInfo_NumLeadingZeros hash :=
  (GenerationHashInfo.NumLeadingZeros (ExtractGenerationHashInfo hash)).

Lemma CalculateHit_range (hash : Hash256) : is_uint64 (CalculateHit hash).
Proof.
  unfold chain.CalculateHit.
  destruct (0 =? hashInfo_Value hash); [unfold is_uint64, uint64_max; lia |].
  destruct (0xFFFFFFFF =? hashInfo_Value hash); [unfold is_uint64; lia |].
  apply uint64_range.
Qed.

(** Outside the two edge cases, and when the logarithm does not exceed
    [(32 + NumLeadingZeros) * 2^54], no step of [CalculateHit] wraps. *)
Lemma CalculateHit_general (hash : Hash256) :
  hashInfo_Value hash <> 0 ->
  hashInfo_Value hash <> 0xFFFFFFFF ->
  0 <= Log2TimesPowerOfTwo (hashInfo_Value hash) 54
    <= (32 + hashInfo_NumLeadingZeros hash) * 2 ^ 54 ->
  CalculateHit hash
  = ((32 + hashInfo_NumLeadingZeros hash) * 2 ^ 54
     - Log2TimesPowerOfTwo (hashInfo_Value hash) 54)
    * 10000000000000000 / 14426950408889634.
Proof.
  intros Hzero Hones Hlog. unfold chain.CalculateHit.
  destruct (Z.eqb_spec 0 (hashInfo_Value hash)) as [E | _]; [congruence |].
  destruct (Z.eqb_spec 0xFFFFFFFF (hashInfo_Value hash)) as [E | _]; [congruence |].
  destruct (hashInfo_range hash) as [Hnlz _].
  change Two_To_54 with (2 ^ 54).
  set (nlz := hashInfo_NumLeadingZeros hash) in *.
  set (logValue := Log2TimesPowerOfTwo (hashInfo_Value hash) 54) in *.
  change (2 ^ 54) with 18014398509481984 in *.
  assert (H32 : uint32 (32 + nlz) = 32 + nlz).
  { apply wrap_small. change (2 ^ 32) with 4294967296. lia. }
  rewrite H32.
  set (x := (32 + nlz) * 18014398509481984 - logValue).
  assert (Hx : 0 <= x <= 4611686018427387904) by (unfold x; lia).
  assert (H64 : uint64 x = x).
  { apply wrap_small. change (2 ^ 64) with 18446744073709551616. lia. }
  rewrite H64.
  assert (H128 : uint128 x = x).
  { apply wrap_small. change (2 ^ 128) with 340282366920938463463374607431768211456. lia. }
  rewrite H128.
  assert (Hmul : uint128 (x * 10000000000000000) = x * 10000000000000000).
  { apply wrap_small. change (2 ^ 128) with 340282366920938463463374607431768211456. lia. }
  rewrite Hmul.
  pose proof (divide_by_log2e_le x (proj1 Hx)).
  apply wrap_small. change (2 ^ 64) with 18446744073709551616. lia.
Qed.

(** C2. [CalculateHit] returns the maximum 64-bit value whenever the
    extracted 32-bit window is 0, which for a 32-byte hash is exactly the
    case of the all-zero hash, and it returns 0 whenever the window is
    0xFFFFFFFF. *)
Theorem CalculateHit_edge_cases (hash : Hash256) :
  (hashInfo_Value hash = 0 -> CalculateHit hash = 2 ^ 64 - 1)
  /\ (List.length hash = 32%nat -> (hash = repeat x00 32 <-> hashInfo_Value hash = 0))
  /\ CalculateHit (repeat x00 32) = 2 ^ 64 - 1
  /\ (hashInfo_Value hash = 0xFFFFFFFF -> CalculateHit hash = 0).
Proof.
  split; [| split; [| split]].
  - intros Hw. unfold chain.CalculateHit. rewrite Hw. reflexivity.
  - intros Hlen. symmetry. now apply window_zero_iff.
  - reflexivity.
  - intros Hw. unfold chain.CalculateHit. rewrite Hw. reflexivity.
Qed.

(** C3, as amended.  For a hash whose window [w] is neither 0 nor
    0xFFFFFFFF, [CalculateHit] is [difference * 10^16 / 14426950408889634]
    with truncating integer division, where [difference] is the 64-bit
    unsigned [(32 + numLeadingZeros) * 2^54 - Log2TimesPowerOfTwo w 54] and
    [numLeadingZeros] is the number of leading zero bits capped at 224, the
    position [ExtractGenerationHashInfo] reports.  The product fits the
    128-bit intermediate and the quotient fits 64 bits, so nothing is lost in
    either; the difference is the exact one whenever the logarithm lies
    between 0 and [(32 + numLeadingZeros) * 2^54]. *)
Theorem CalculateHit_formula (hash : Hash256) :
  let w := hashInfo_Value hash in
  let numLeadingZeros := Z.min (NumLeadingZeros hash) 224 in
  let logValue := Log2TimesPowerOfTwo w 54 in
  let difference := uint64 ((32 + numLeadingZeros) * 2 ^ 54 - logValue) in
  w <> 0 -> w <> 0xFFFFFFFF ->
  CalculateHit hash = difference * 10000000000000000 / 14426950408889634
  /\ 0 <= difference * 10000000000000000 < 2 ^ 128
  /\ 0 <= difference * 10000000000000000 / 14426950408889634 < 2 ^ 64
  /\ (0 <= logValue <= (32 + numLeadingZeros) * 2 ^ 54 ->
      difference = (32 + numLeadingZeros) * 2 ^ 54 - logValue).
Proof.
  intros w numLeadingZeros logValue difference Hzero Hones.
  assert (Hposition : hashInfo_NumLeadingZeros hash = numLeadingZeros).
  { subst numLeadingZeros.
    destruct (Z.lt_ge_cases (NumLeadingZeros hash) 224) as [Hlt | Hge].
    - destruct (ExtractGenerationHashInfo_window hash Hlt) as [-> _]. lia.
    - destruct (ExtractGenerationHashInfo_tail hash Hge) as [-> _]. lia. }
  destruct (hashInfo_range hash) as [Hnlz _]. rewrite Hposition in Hnlz.
  pose proof (uint64_range ((32 + numLeadingZeros) * 2 ^ 54 - logValue)) as Hdifference.
  fold difference in Hdifference. unfold is_uint64 in Hdifference.
  pose proof (divide_by_log2e_le difference (proj1 Hdifference)) as Hquotient.
  change (2 ^ 64) with 18446744073709551616 in *.
  assert (Hhit : CalculateHit hash = difference * 10000000000000000 / 14426950408889634).
  { unfold chain.CalculateHit. fold w.
    destruct (Z.eqb_spec 0 w) as [E | _]; [congruence |].
    destruct (Z.eqb_spec 0xFFFFFFFF w) as [E | _]; [congruence |].
    rewrite Hposition. fold logValue. change Two_To_54 with (2 ^ 54).
    unfold uint32, uint128.
    rewrite (wrap_small 32 (32 + numLeadingZeros))
      by (change (2 ^ 32) with 4294967296; lia).
    fold difference.
    rewrite (wrap_small 128 difference)
      by (change (2 ^ 128) with 340282366920938463463374607431768211456; lia).
    rewrite (wrap_small 128 (difference * 10000000000000000))
      by (change (2 ^ 128) with 340282366920938463463374607431768211456; lia).
    apply uint64_small. unfold is_uint64.
    change (2 ^ 64) with 18446744073709551616. lia. }
  split; [exact Hhit |].
  split; [change (2 ^ 128) with 340282366920938463463374607431768211456; lia |].
  split; [lia |].
  intros Hlog. subst difference. apply uint64_small. unfold is_uint64.
  change (2 ^ 54) with 18014398509481984 in *.
  change (2 ^ 64) with 18446744073709551616. lia.
Qed.

(** What the order of two hits needs of the logarithm: for two hashes
    with a nonzero first byte and the same number of leading zero bits, the
    hit of the first is strictly above the hit of the second once
    [Log2TimesPowerOfTwo] grows by at least 2 from the first window to the
    second without exceeding [32 * 2^54]. *)
Lemma CalculateHit_decreasing_of_kernel_gap (hash1 hash2 : Hash256) :
  byte_at hash1 0 <> 0 -> byte_at hash2 0 <> 0 ->
  hashInfo_NumLeadingZeros hash1 = hashInfo_NumLeadingZeros hash2 ->
  hashInfo_Value hash1 < hashInfo_Value hash2 ->
  0 <= Log2TimesPowerOfTwo (hashInfo_Value hash1) 54 ->
  Log2TimesPowerOfTwo (hashInfo_Value hash1) 54 + 2
    <= Log2TimesPowerOfTwo (hashInfo_Value hash2) 54 ->
  Log2TimesPowerOfTwo (hashInfo_Value hash2) 54 <= 32 * 2 ^ 54 ->
  CalculateHit hash2 < CalculateHit hash1.
Proof.
  intros Hfirst1 Hfirst2 Hsame Hlt Hlog0 Hgap Htop.
  pose proof (NumLeadingZeros_first_byte hash1 Hfirst1) as Hz1.
  pose proof (NumLeadingZeros_first_byte hash2 Hfirst2) as Hz2.
  destruct (ExtractGenerationHashInfo_window hash1) as [Hn1 Hw1]; [lia |].
  destruct (ExtractGenerationHashInfo_window hash2) as [Hn2 Hw2]; [lia |].
  change (2 ^ 31) with 2147483648 in *. change (2 ^ 32) with 4294967296 in *.
  assert (Hnlz : 0 <= hashInfo_NumLeadingZeros hash1 <= 7) by lia.
  rewrite (CalculateHit_general hash1);
    [| lia | lia | change (2 ^ 54) with 18014398509481984 in *; lia].
  destruct (Z.eq_dec (hashInfo_Value hash2) 0xFFFFFFFF) as [Hones | Hones].
  - assert (Hhit2 : CalculateHit hash2 = 0).
    { unfold chain.CalculateHit. rewrite Hones. reflexivity. }
    rewrite Hhit2.
    change (2 ^ 54) with 18014398509481984 in *.
    Z.div_mod_to_equations. lia.
  - rewrite (CalculateHit_general hash2);
      [| lia | lia | change (2 ^ 54) with 18014398509481984 in *; lia].
    rewrite <- Hsame. apply divide_by_log2e_lt. lia.
Qed.

End HitProperties.

(** ** The modelled logarithm *)

(** The bits already collected are shifted up by the bits still to come. *)
Lemma Log2Fraction_acc (n : nat) (mantissa acc : Z) :
  utils.Log2Fraction n mantissa acc
  = acc * 2 ^ Z.of_nat n + utils.Log2Fraction n mantissa 0.
Proof.
  revert mantissa acc. induction n as [|n IH]; intros mantissa acc.
  - cbn. lia.
  - cbn [utils.Log2Fraction].
    replace (Z.of_nat (S n)) with (1 + Z.of_nat n) by lia.
    rewrite Z.pow_add_r by lia. change (2 ^ 1) with 2.
    destruct (2 ^ 64 <=? Z.shiftr (mantissa * mantissa) 63).
    + change (2 * 0 + 1) with 1. rewrite (IH _ (2 * acc + 1)), (IH _ 1).
      generalize (2 ^ Z.of_nat n). intros power. ring.
    + change (2 * 0) with 0. rewrite (IH _ (2 * acc)).
      generalize (2 ^ Z.of_nat n). intros power. ring.
Qed.

(** One iteration: the next bit, then the remaining bits of the next mantissa. *)
Lemma Log2Fraction_step (n : nat) (mantissa : Z) :
  utils.Log2Fraction (S n) mantissa 0
  = kernel.next_bit mantissa * 2 ^ Z.of_nat n + utils.Log2Fraction n (kernel.next_mantissa mantissa) 0.
Proof.
  cbn [utils.Log2Fraction]. unfold kernel.next_bit, kernel.next_mantissa.
  destruct (2 ^ 64 <=? Z.shiftr (mantissa * mantissa) 63).
  - rewrite Log2Fraction_acc. reflexivity.
  - rewrite Log2Fraction_acc. reflexivity.
Qed.

(** [n] iterations give an [n]-bit fraction. *)
Lemma Log2Fraction_range (n : nat) (mantissa : Z) :
  0 <= utils.Log2Fraction n mantissa 0 < 2 ^ Z.of_nat n.
Proof.
  revert mantissa. induction n as [|n IH]; intros mantissa.
  - cbn. lia.
  - rewrite Log2Fraction_step. pose proof (IH (kernel.next_mantissa mantissa)) as Hrest.
    replace (Z.of_nat (S n)) with (1 + Z.of_nat n) by lia.
    rewrite Z.pow_add_r by lia. change (2 ^ 1) with 2.
    unfold kernel.next_bit. destruct (2 ^ 64 <=? Z.shiftr (mantissa * mantissa) 63); lia.
Qed.

(** One squaring: the case of the bit 0 and the case of the bit 1. *)
(** A normalised mantissa stays normalised; the next mantissa is the square
    divided by [2^63] or, when the square reaches [2^127], by [2^64], rounded
    down. *)
Lemma next_mantissa_cases (m : Z) :
  2 ^ 63 <= m < 2 ^ 64 ->
  2 ^ 63 <= kernel.next_mantissa m < 2 ^ 64
  /\ ((kernel.next_bit m = 0 /\ kernel.next_mantissa m * 2 ^ 63 <= m * m
       /\ m * m < kernel.next_mantissa m * 2 ^ 63 + 2 ^ 63 /\ m * m < 2 ^ 127)
      \/ (kernel.next_bit m = 1 /\ kernel.next_mantissa m * 2 ^ 64 <= m * m
          /\ m * m < kernel.next_mantissa m * 2 ^ 64 + 2 ^ 64 /\ 2 ^ 127 <= m * m)).
Proof.
  intros Hm. unfold kernel.next_bit, kernel.next_mantissa.
  rewrite !Z.shiftr_div_pow2 by lia. change (2 ^ 1) with 2.
  assert (Hsq : 2 ^ 126 <= m * m < 2 ^ 128).
  { change (2 ^ 126) with (2 ^ 63 * 2 ^ 63). change (2 ^ 128) with (2 ^ 64 * 2 ^ 64).
    split; [apply Z.mul_le_mono_nonneg; lia | apply Z.mul_lt_mono_nonneg; lia]. }
  set (A := m * m) in *.
  change (2 ^ 63) with 9223372036854775808 in *.
  change (2 ^ 64) with 18446744073709551616 in *.
  change (2 ^ 126) with 85070591730234615865843651857942052864 in *.
  change (2 ^ 127) with 170141183460469231731687303715884105728 in *.
  change (2 ^ 128) with 340282366920938463463374607431768211456 in *.
  destruct (Z.leb_spec 18446744073709551616 (A / 9223372036854775808)) as [Hb | Hb].
  - split; [| right]; Z.div_mod_to_equations; lia.
  - split; [| left]; Z.div_mod_to_equations; lia.
Qed.

(** Squaring an inequality [m * (2^64 + G) <= P * m' * 2^64]. *)
(** Squaring doubles the relative distance of two mantissas: from
    [m * (1 + G / 2^64) <= P * m'] to
    [m^2 * (1 + 2 * G / 2^64) <= P^2 * m'^2]. *)
Lemma ratio_squared (m m' P G : Z) :
  0 <= m -> 0 <= G ->
  m * (2 ^ 64 + G) <= P * m' * 2 ^ 64 ->
  (m * m) * (2 ^ 64 + 2 * G) <= (P * P) * (m' * m') * 2 ^ 64.
Proof.
  intros Hm HG Hratio.
  assert (Hy : 0 <= m * (2 ^ 64 + G)) by (apply Z.mul_nonneg_nonneg; lia).
  pose proof (Z.mul_le_mono_nonneg _ _ _ _ Hy Hratio Hy Hratio) as Hsq.
  assert (Hlow : 2 ^ 64 * ((m * m) * (2 ^ 64 + 2 * G))
                 <= m * (2 ^ 64 + G) * (m * (2 ^ 64 + G))).
  { assert (0 <= (m * m) * (G * G)).
    { apply Z.mul_nonneg_nonneg; apply Z.square_nonneg. }
    change (2 ^ 64) with 18446744073709551616 in *. nia. }
  assert (Hhigh : P * m' * 2 ^ 64 * (P * m' * 2 ^ 64)
                  = 2 ^ 64 * ((P * P) * (m' * m') * 2 ^ 64)) by ring.
  rewrite Hhigh in Hsq.
  apply (Z.mul_le_mono_pos_l _ _ (2 ^ 64)); [reflexivity | lia].
Qed.

(** One step of the two runs. *)
(** Rounding the squares down costs at most 32 of the doubled distance. *)
Lemma ratio_step (A A' q q' G T K c c' : Z) :
  q * c <= A -> A' < q' * c' + c' ->
  A * (2 ^ 64 + 2 * G) <= K * A' * 2 ^ 64 ->
  2 ^ 126 <= A -> 0 <= K <= 4 -> 0 < c -> 0 < c' <= 2 ^ 64 -> T * c = K * c' ->
  16 <= G -> 0 <= q ->
  q * (2 ^ 64 + (2 * G - 32)) <= T * q' * 2 ^ 64.
Proof.
  intros Hq Hq' Hratio HA HK Hc Hc' Hscale HG Hq0.
  apply (Z.mul_le_mono_pos_r _ _ c); [exact Hc |].
  assert (H1 : q * (2 ^ 64 + (2 * G - 32)) * c
               <= A * (2 ^ 64 + (2 * G - 32))).
  { replace (q * (2 ^ 64 + (2 * G - 32)) * c)
      with (q * c * (2 ^ 64 + (2 * G - 32))) by ring.
    apply Z.mul_le_mono_nonneg_r; [change (2 ^ 64) with 18446744073709551616; lia | exact Hq]. }
  assert (H2 : K * (A' - c') <= K * (q' * c')) by (apply Z.mul_le_mono_nonneg_l; lia).
  assert (H3 : K * c' <= 4 * 2 ^ 64).
  { apply Z.mul_le_mono_nonneg; lia. }
  replace (T * q' * 2 ^ 64 * c) with (K * (q' * c') * 2 ^ 64)
    by (replace (T * q' * 2 ^ 64 * c) with (T * c * q' * 2 ^ 64) by ring;
        rewrite Hscale; ring).
  change (2 ^ 64) with 18446744073709551616 in *.
  change (2 ^ 126) with 85070591730234615865843651857942052864 in *.
  nia.
Qed.

(** Two mantissas at relative distance [G / 2^64], the second [a] binary
    orders above the first in the bits already produced: after [n]
    iterations, with [G - 32] at least [2^68 / 2^n], the fractions differ
    by at least 2. *)
Lemma Log2Fraction_gap (n : nat) (m m' a G : Z) :
  2 ^ 63 <= m < 2 ^ 64 -> 2 ^ 63 <= m' < 2 ^ 64 ->
  a = 0 \/ a = 1 -> 32 <= G ->
  m * (2 ^ 64 + G) <= 2 ^ a * m' * 2 ^ 64 ->
  2 ^ 68 <= (G - 32) * 2 ^ Z.of_nat n ->
  utils.Log2Fraction n m 0 + 2 <= a * 2 ^ Z.of_nat n + utils.Log2Fraction n m' 0.
Proof.
  revert m m' a G. induction n as [|n IH]; intros m m' a G Hm Hm' Ha HG Hratio Hsteps.
  - exfalso. change (2 ^ Z.of_nat 0) with 1 in Hsteps.
    assert (Hpow : 0 < 2 ^ a <= 2) by (destruct Ha as [-> | ->]; cbn; lia).
    assert (H1 : 2 ^ a * m' * 2 ^ 64 <= 2 * 2 ^ 64 * 2 ^ 64).
    { apply Z.mul_le_mono_nonneg_r; [lia |]. apply Z.mul_le_mono_nonneg; lia. }
    assert (H2 : 2 ^ 63 * (2 ^ 64 + G) <= m * (2 ^ 64 + G)).
    { apply Z.mul_le_mono_nonneg_r; lia. }
    change (2 ^ 63) with 9223372036854775808 in *.
    change (2 ^ 64) with 18446744073709551616 in *.
    change (2 ^ 68) with 295147905179352825856 in *.
    lia.
  - rewrite !Log2Fraction_step.
    replace (Z.of_nat (S n)) with (1 + Z.of_nat n) in * by lia.
    rewrite Z.pow_add_r in * by lia. change (2 ^ 1) with 2 in *.
    pose proof (Log2Fraction_range n (kernel.next_mantissa m)) as Hrest.
    pose proof (Log2Fraction_range n (kernel.next_mantissa m')) as Hrest'.
    assert (Hpower : 0 < 2 ^ Z.of_nat n) by (apply Z.pow_pos_nonneg; lia).
    destruct (next_mantissa_cases m Hm) as [Hq Hcase].
    destruct (next_mantissa_cases m' Hm') as [Hq' Hcase'].
    pose proof (ratio_squared m m' (2 ^ a) G ltac:(lia) ltac:(lia) Hratio) as Hsquared.
    assert (Hsquare : 2 ^ 126 <= m * m).
    { change (2 ^ 126) with (2 ^ 63 * 2 ^ 63). apply Z.mul_le_mono_nonneg; lia. }
    assert (Hnext : forall a1,
               a1 = 0 \/ a1 = 1 ->
               kernel.next_mantissa m * (2 ^ 64 + (2 * G - 32))
               <= 2 ^ a1 * kernel.next_mantissa m' * 2 ^ 64 ->
               utils.Log2Fraction n (kernel.next_mantissa m) 0 + 2
               <= a1 * 2 ^ Z.of_nat n + utils.Log2Fraction n (kernel.next_mantissa m') 0).
    { intros a1 Ha1 Hratio1. apply (IH _ _ a1 (2 * G - 32)); try assumption; lia. }
    set (power := 2 ^ Z.of_nat n) in *.
    destruct Ha as [-> | ->];
      [change (2 ^ 0) with 1 in * | change (2 ^ 1) with 2 in *];
      destruct Hcase as [(-> & Hlow & Hhigh & Hbit) | (-> & Hlow & Hhigh & Hbit)];
      destruct Hcase' as [(-> & Hlow' & Hhigh' & Hbit') | (-> & Hlow' & Hhigh' & Hbit')].
    + (* a = 0, bits 0 and 0 *)
      specialize (Hnext 0 (or_introl eq_refl)). change (2 ^ 0) with 1 in Hnext.
      assert (Hstep : kernel.next_mantissa m * (2 ^ 64 + (2 * G - 32))
                      <= 1 * kernel.next_mantissa m' * 2 ^ 64).
      { apply (ratio_step (m * m) (m' * m') _ _ G 1 (1 * 1) (2 ^ 63) (2 ^ 63));
          try assumption; try lia; cbn; lia. }
      specialize (Hnext Hstep). lia.
    + (* a = 0, bits 0 and 1 *)
      specialize (Hnext 1 (or_intror eq_refl)). change (2 ^ 1) with 2 in Hnext.
      assert (Hstep : kernel.next_mantissa m * (2 ^ 64 + (2 * G - 32))
                      <= 2 * kernel.next_mantissa m' * 2 ^ 64).
      { apply (ratio_step (m * m) (m' * m') _ _ G 2 (1 * 1) (2 ^ 63) (2 ^ 64));
          try assumption; try lia; cbn; lia. }
      specialize (Hnext Hstep). lia.
    + (* a = 0, bits 1 and 0: the larger mantissa has the larger square *)
      exfalso.
      assert (m <= m').
      { apply (Z.mul_le_mono_pos_r _ _ (2 ^ 64)); [reflexivity |].
        change (2 ^ 64) with 18446744073709551616 in *. nia. }
      assert (m * m <= m' * m') by (apply Z.mul_le_mono_nonneg; lia).
      lia.
    + (* a = 0, bits 1 and 1 *)
      specialize (Hnext 0 (or_introl eq_refl)). change (2 ^ 0) with 1 in Hnext.
      assert (Hstep : kernel.next_mantissa m * (2 ^ 64 + (2 * G - 32))
                      <= 1 * kernel.next_mantissa m' * 2 ^ 64).
      { apply (ratio_step (m * m) (m' * m') _ _ G 1 (1 * 1) (2 ^ 64) (2 ^ 64));
          try assumption; try lia; cbn; lia. }
      specialize (Hnext Hstep). lia.
    + (* a = 1, bits 0 and 0: the difference is two by now *)
      lia.
    + (* a = 1, bits 0 and 1 *)
      lia.
    + (* a = 1, bits 1 and 0 *)
      specialize (Hnext 1 (or_intror eq_refl)). change (2 ^ 1) with 2 in Hnext.
      assert (Hstep : kernel.next_mantissa m * (2 ^ 64 + (2 * G - 32))
                      <= 2 * kernel.next_mantissa m' * 2 ^ 64).
      { apply (ratio_step (m * m) (m' * m') _ _ G 2 (2 * 2) (2 ^ 64) (2 ^ 63));
          try assumption; try lia; cbn; lia. }
      specialize (Hnext Hstep). lia.
    + (* a = 1, bits 1 and 1 *)
      lia.
Qed.

(** The modelled logarithm of a nonzero 32-bit value at scale 54: integer
    part and 54-bit fraction, within [Log2 w] and [Log2 w + 1], hence
    between 0 and [32 * 2^54]. *)
Lemma Log2TimesPowerOfTwo_bounds (w : Z) :
  0 < w < 2 ^ 32 ->
  utils.Log2TimesPowerOfTwo w 54
  = Z.log2 w * 2 ^ 54 + utils.Log2Fraction 54 (w * 2 ^ (63 - Z.log2 w)) 0
  /\ Z.log2 w * 2 ^ 54 <= utils.Log2TimesPowerOfTwo w 54 < (Z.log2 w + 1) * 2 ^ 54
  /\ 0 <= utils.Log2TimesPowerOfTwo w 54 <= 32 * 2 ^ 54.
Proof.
  intros Hw.
  assert (Hlog : 0 <= Z.log2 w < 32).
  { split; [apply Z.log2_nonneg | apply Z.log2_lt_pow2; lia]. }
  pose proof (Log2Fraction_range 54 (w * 2 ^ (63 - Z.log2 w))) as Hfraction.
  change (2 ^ Z.of_nat 54) with (2 ^ 54) in Hfraction.
  assert (Hvalue : utils.Log2TimesPowerOfTwo w 54
                   = Z.log2 w * 2 ^ 54
                     + utils.Log2Fraction 54 (w * 2 ^ (63 - Z.log2 w)) 0).
  { unfold utils.Log2TimesPowerOfTwo, utils.Log2.
    change (Z.to_nat 54) with 54%nat.
    rewrite !Z.shiftl_mul_pow2 by lia.
    apply uint64_small. unfold is_uint64.
    change (2 ^ 54) with 18014398509481984 in *.
    change (2 ^ 64) with 18446744073709551616. lia. }
  rewrite Hvalue. change (2 ^ 54) with 18014398509481984 in *. lia.
Qed.

(** On the windows with the top bit set, the modelled logarithm grows by at
    least 2 from one window to any larger one. *)
Lemma Log2TimesPowerOfTwo_gap (w w' : Z) :
  2 ^ 31 <= w -> w < w' -> w' < 2 ^ 32 ->
  utils.Log2TimesPowerOfTwo w 54 + 2 <= utils.Log2TimesPowerOfTwo w' 54.
Proof.
  intros Hlow Hlt Hhigh.
  change (2 ^ 31) with 2147483648 in *. change (2 ^ 32) with 4294967296 in *.
  assert (Hlog : Z.log2 w = 31) by (apply Z.log2_unique; cbn; lia).
  assert (Hlog' : Z.log2 w' = 31) by (apply Z.log2_unique; cbn; lia).
  destruct (Log2TimesPowerOfTwo_bounds w) as [-> _]; [cbn; lia |].
  destruct (Log2TimesPowerOfTwo_bounds w') as [-> _]; [cbn; lia |].
  rewrite Hlog, Hlog'. change (63 - 31) with 32. change (2 ^ 32) with 4294967296.
  pose proof (Log2Fraction_gap 54 (w * 4294967296) (w' * 4294967296) 0 (2 ^ 32)) as Hgap.
  change (2 ^ Z.of_nat 54) with (2 ^ 54) in Hgap.
  change (2 ^ 0) with 1 in Hgap.
  change (2 ^ 32) with 4294967296 in Hgap.
  change (2 ^ 63) with 9223372036854775808 in Hgap.
  change (2 ^ 64) with 18446744073709551616 in Hgap.
  change (2 ^ 68) with 295147905179352825856 in Hgap.
  change (2 ^ 54) with 18014398509481984 in *.
  lapply Hgap; [clear Hgap; intros Hgap | lia].
  lapply Hgap; [clear Hgap; intros Hgap | lia].
  lapply Hgap; [clear Hgap; intros Hgap | left; reflexivity].
  lapply Hgap; [clear Hgap; intros Hgap | lia].
  lapply Hgap; [clear Hgap; intros Hgap | lia].
  lapply Hgap; [clear Hgap; intros Hgap | lia].
  lia.
Qed.

(** With the modelled logarithm the 64-bit subtraction of [CalculateHit] is
    exact for every hash: the hit is the integer expression with the
    position capped at 224. *)
Lemma CalculateHit_of_modelled_logarithm (hash : model.Hash256) :
  let hashInfo := chain.ExtractGenerationHashInfo hash in
  let w := chain.GenerationHashInfo.Value hashInfo in
  let numLeadingZeros := chain.GenerationHashInfo.NumLeadingZeros hashInfo in
  w <> 0 -> w <> 0xFFFFFFFF ->
  0 <= numLeadingZeros <= 224
  /\ chain.CalculateHit utils.Log2TimesPowerOfTwo hash
     = ((32 + numLeadingZeros) * 2 ^ 54 - utils.Log2TimesPowerOfTwo w 54)
       * 10000000000000000 / 14426950408889634.
Proof.
  intros hashInfo w numLeadingZeros Hzero Hones.
  destruct (hashInfo_range hash) as [Hnlz Hw].
  fold hashInfo in Hnlz, Hw. fold numLeadingZeros in Hnlz. fold w in Hw.
  split; [exact Hnlz |].
  destruct (Log2TimesPowerOfTwo_bounds w) as (_ & _ & Hlog); [lia |].
  apply CalculateHit_general; try assumption.
  fold hashInfo. fold w. fold numLeadingZeros.
  change (2 ^ 54) with 18014398509481984 in *. lia.
Qed.


(** ** CalculateScore *)

Section ScoreProperties.
Import model chain.

Lemma TimeBetweenBlocks_seconds (parent current : Block) :
  is_uint64 (Timestamp parent) -> is_uint64 (Timestamp current) ->
  Timestamp parent < Timestamp current ->
  utils.seconds (TimeBetweenBlocks parent current)
  = (Timestamp current - Timestamp parent) / 1000.
Proof.
  unfold is_uint64. intros Hp Hc Hlt.
  unfold TimeBetweenBlocks, utils.FromDifference, utils.seconds. cbn [utils.millis].
  rewrite uint64_small; [reflexivity | unfold is_uint64; lia].
Qed.

(** C6. [CalculateScore] is 0 when the current block is not later than
    its parent; otherwise it is the current difficulty minus the whole
    seconds between the two timestamps, the subtraction being the 64-bit
    unsigned one (exact whenever the seconds do not exceed the
    difficulty). *)
Theorem CalculateScore_spec (parent current : Block) :
  is_uint64 (Timestamp parent) -> is_uint64 (Timestamp current) ->
  is_uint64 (Difficulty current) ->
  (Timestamp current <= Timestamp parent -> CalculateScore parent current = 0)
  /\ (Timestamp parent < Timestamp current ->
      let elapsedSeconds := (Timestamp current - Timestamp parent) / 1000 in
      CalculateScore parent current = uint64 (Difficulty current - elapsedSeconds)
      /\ (elapsedSeconds <= Difficulty current ->
          CalculateScore parent current = Difficulty current - elapsedSeconds)).
Proof.
  intros Hp Hc Hd. split.
  - intros Hle. unfold CalculateScore.
    destruct (Z.leb_spec (Timestamp current) (Timestamp parent)); [reflexivity | lia].
  - intros Hlt elapsedSeconds.
    assert (Hscore : CalculateScore parent current
                     = uint64 (Difficulty current - elapsedSeconds)).
    { unfold CalculateScore.
      destruct (Z.leb_spec (Timestamp current) (Timestamp parent)); [lia |].
      now rewrite TimeBetweenBlocks_seconds. }
    split; [exact Hscore |].
    intros Hfits. rewrite Hscore. apply uint64_small.
    unfold is_uint64 in *.
    assert (0 <= elapsedSeconds) by (apply Z.div_pos; lia).
    lia.
Qed.

(** C10. When the current block is later than its parent and the whole
    seconds between them exceed the current difficulty, the 64-bit unsigned
    subtraction of [CalculateScore] wraps: the score is [2^64 + difficulty -
    seconds], which is neither 0 nor small. *)
Theorem CalculateScore_wraps (parent current : Block) :
  is_uint64 (Timestamp parent) -> is_uint64 (Timestamp current) ->
  is_uint64 (Difficulty current) ->
  Timestamp parent < Timestamp current ->
  let elapsedSeconds := (Timestamp current - Timestamp parent) / 1000 in
  Difficulty current < elapsedSeconds ->
  CalculateScore parent current = 2 ^ 64 + Difficulty current - elapsedSeconds
  /\ CalculateScore parent current <> 0
  /\ 2 ^ 64 - 2 ^ 64 / 1000 <= CalculateScore parent current < 2 ^ 64.
Proof.
  intros Hp Hc Hd Hlt elapsedSeconds Hexceeds.
  assert (Hscore : CalculateScore parent current
                   = 2 ^ 64 + Difficulty current - elapsedSeconds).
  { unfold CalculateScore.
    destruct (Z.leb_spec (Timestamp current) (Timestamp parent)); [lia |].
    rewrite TimeBetweenBlocks_seconds by assumption.
    fold elapsedSeconds. unfold uint64, wrap, is_uint64 in *.
    assert (elapsedSeconds <= 2 ^ 64 / 1000).
    { subst elapsedSeconds. apply Z.div_le_mono; lia. }
    change (2 ^ 64 / 1000) with 18446744073709551 in *.
    change (2 ^ 64) with 18446744073709551616 in *.
    symmetry. apply Z.mod_unique with (q := -1); lia. }
  rewrite Hscore. unfold is_uint64 in *.
  assert (elapsedSeconds <= 2 ^ 64 / 1000).
  { subst elapsedSeconds. apply Z.div_le_mono; lia. }
  change (2 ^ 64 / 1000) with 18446744073709551 in *.
  change (2 ^ 64) with 18446744073709551616 in *.
  lia.
Qed.

End ScoreProperties.

(** ** CalculateTarget and BlockHitPredicate *)

Section TargetProperties.
Import model chain.

Variable BlockTarget_bits : Z.
Variable ScaledSmoother : Z -> Z -> Z -> Z.

Local Abbreviation BlockTarget := (chain.BlockTarget BlockTarget_bits).
Local Abbreviation GetMultiplier := (chain.GetMultiplier BlockTarget_bits ScaledSmoother).
Local Abbreviation CalculateTarget :=
  (chain.CalculateTarget BlockTarget_bits ScaledSmoother).
Local Abbreviation CalculateTarget_blocks :=
  (chain.CalculateTarget_blocks BlockTarget_bits ScaledSmoother).

Lemma BlockTarget_small (x : Z) : 0 <= x < 2 ^ BlockTarget_bits -> BlockTarget x = x.
Proof. apply wrap_small. Qed.

Lemma BlockTarget_uint64 (x : Z) :
  64 <= BlockTarget_bits -> is_uint64 x -> BlockTarget x = x.
Proof.
  intros Hbits Hx. apply wrap_small. unfold is_uint64 in Hx.
  assert (2 ^ 64 <= 2 ^ BlockTarget_bits) by (apply Z.pow_le_mono_r; lia).
  lia.
Qed.

Lemma BlockTarget_zero : BlockTarget 0 = 0.
Proof. unfold chain.BlockTarget, wrap. apply Zmod_0_l. Qed.

Lemma GetMultiplier_nonneg (timeDiff : Z) (config : BlockChainConfiguration) :
  0 <= BlockTarget_bits -> 0 <= GetMultiplier timeDiff config.
Proof.
  intros Hbits. unfold chain.GetMultiplier, BlockTarget_shl.
  now apply wrap_nonneg.
Qed.

(** The multiplications of [CalculateTarget] amount to one product reduced
    to the width of [BlockTarget]. *)
Lemma CalculateTarget_product (seconds importance multiplier : Z) :
  BlockTarget_mul BlockTarget_bits
    (BlockTarget_mul BlockTarget_bits
       (BlockTarget_mul BlockTarget_bits (BlockTarget seconds) (BlockTarget importance))
       multiplier)
    (BlockTarget 8999999998)
  = BlockTarget (seconds * importance * multiplier * 8999999998).
Proof.
  unfold BlockTarget_mul, chain.BlockTarget.
  rewrite wrap_mul_r, wrap_mul_l, <- Z.mul_assoc, wrap_mul_l, <- Z.mul_assoc, wrap_mul_l.
  rewrite (Z.mul_comm (wrap _ importance)), Z.mul_assoc, wrap_mul_r.
  f_equal. ring.
Qed.

Lemma CalculateTarget_unfold (timeSpan : utils.TimeSpan) (difficulty importance : Z)
    (config : BlockChainConfiguration) :
  CalculateTarget timeSpan difficulty importance config
  = match
      BlockTarget_div
        (BlockTarget (utils.seconds timeSpan * importance
                      * GetMultiplier (utils.seconds timeSpan) config * 8999999998))
        (BlockTarget (TotalChainImportance config))
    with
    | None => None
    | Some target => BlockTarget_div target (BlockTarget difficulty)
    end.
Proof. unfold chain.CalculateTarget. now rewrite CalculateTarget_product. Qed.

(** [CalculateTarget] returns exactly when neither divisor is zero. *)
Lemma CalculateTarget_returns (timeSpan : utils.TimeSpan) (difficulty importance : Z)
    (config : BlockChainConfiguration) :
  BlockTarget (TotalChainImportance config) <> 0 /\ BlockTarget difficulty <> 0
  <-> exists target, CalculateTarget timeSpan difficulty importance config = Some target.
Proof.
  rewrite CalculateTarget_unfold. unfold BlockTarget_div.
  destruct (Z.eqb_spec (BlockTarget (TotalChainImportance config)) 0) as [Et | Et];
    destruct (Z.eqb_spec (BlockTarget difficulty) 0) as [Ed | Ed]; split;
    try (intros [Ht Hd]; congruence); try (intros [target Ht]; discriminate).
  - intros _. eexists. reflexivity.
  - intros _. split; assumption.
Qed.

(** The product of [CalculateTarget] always fits a [BlockTarget] of 227
    bits or more: the seconds of a 64-bit millisecond count are below 2^55,
    the importance below 2^64, the multiplier below 2^74 and the scale
    below 2^34. *)
Lemma CalculateTarget_product_fits (timeSpan : utils.TimeSpan) (importance : Z)
    (config : BlockChainConfiguration) :
  227 <= BlockTarget_bits ->
  is_uint64 (utils.millis timeSpan) -> is_uint64 importance ->
  utils.seconds timeSpan * importance
    * GetMultiplier (utils.seconds timeSpan) config * 8999999998
    < 2 ^ BlockTarget_bits.
Proof.
  unfold is_uint64. intros Hbits Hmillis Himp.
  assert (Hpow : 2 ^ 227 <= 2 ^ BlockTarget_bits) by (apply Z.pow_le_mono_r; lia).
  assert (Hsecs : 0 <= utils.seconds timeSpan <= 2 ^ 55).
  { unfold utils.seconds. change (2 ^ 64) with 18446744073709551616 in Hmillis.
    change (2 ^ 55) with 36028797018963968. Z.div_mod_to_equations. lia. }
  assert (Hmult : 0 <= GetMultiplier (utils.seconds timeSpan) config <= 2 ^ 74).
  { split; [apply GetMultiplier_nonneg; lia |].
    unfold chain.GetMultiplier, BlockTarget_shl, chain.BlockTarget.
    set (scaled := if negb (0 =? BlockTimeSmoothingFactor config) then _ else _).
    assert (Hscaled : 0 <= scaled < 2 ^ 64).
    { subst scaled. destruct (negb (0 =? BlockTimeSmoothingFactor config)).
      - apply uint64_range.
      - change Two_To_54 with (2 ^ 54). change (2 ^ 54) with 18014398509481984.
        change (2 ^ 64) with 18446744073709551616. lia. }
    rewrite (wrap_small BlockTarget_bits scaled) by lia.
    rewrite Z.shiftl_mul_pow2 by lia.
    change (2 ^ 74) with (2 ^ 64 * 2 ^ 10).
    assert (Hshift : 0 <= scaled * 2 ^ 10 < 2 ^ BlockTarget_bits).
    { change (2 ^ 227) with (2 ^ 64 * 2 ^ 10 * 2 ^ 153) in Hpow.
      change (2 ^ 153) with 11417981541647679048466287755595961091061972992 in Hpow.
      change (2 ^ 10) with 1024 in *. lia. }
    rewrite wrap_small by exact Hshift. lia. }
  assert (H1 : utils.seconds timeSpan * importance <= 2 ^ 55 * 2 ^ 64)
    by (apply Z.mul_le_mono_nonneg; lia).
  assert (H2 : utils.seconds timeSpan * importance
               * GetMultiplier (utils.seconds timeSpan) config
               <= 2 ^ 55 * 2 ^ 64 * 2 ^ 74).
  { apply Z.mul_le_mono_nonneg; lia. }
  change (2 ^ 227) with (2 ^ 55 * 2 ^ 64 * 2 ^ 74 * 2 ^ 34) in Hpow.
  change (2 ^ 34) with 17179869184 in Hpow.
  lia.
Qed.

(** C7, as amended.  With elapsed time, difficulty and configuration fixed,
    [CalculateTarget] does not decrease when the importance grows, as long
    as the product [seconds * importance * multiplier * 8999999998] of the
    larger importance fits [BlockTarget], which it always does when
    [BlockTarget] has 227 bits or more; with elapsed time, importance and
    configuration fixed, it does not increase when a positive difficulty
    grows. *)
Theorem CalculateTarget_monotone (timeSpan : utils.TimeSpan)
    (config : BlockChainConfiguration) :
  0 <= BlockTarget_bits -> 0 <= utils.millis timeSpan ->
  (forall difficulty importance1 importance2,
      0 <= importance1 <= importance2 ->
      utils.seconds timeSpan * importance2
        * GetMultiplier (utils.seconds timeSpan) config * 8999999998
        < 2 ^ BlockTarget_bits ->
      target_le (CalculateTarget timeSpan difficulty importance1 config)
                (CalculateTarget timeSpan difficulty importance2 config))
  /\ (227 <= BlockTarget_bits -> utils.millis timeSpan < 2 ^ 64 ->
      forall difficulty importance1 importance2,
      0 <= importance1 <= importance2 -> importance2 < 2 ^ 64 ->
      target_le (CalculateTarget timeSpan difficulty importance1 config)
                (CalculateTarget timeSpan difficulty importance2 config))
  /\ (forall importance difficulty1 difficulty2,
      0 < difficulty1 <= difficulty2 -> difficulty2 < 2 ^ BlockTarget_bits ->
      target_le (CalculateTarget timeSpan difficulty2 importance config)
                (CalculateTarget timeSpan difficulty1 importance config)).
Proof.
  intros Hbits Hmillis.
  assert (Hsecs : 0 <= utils.seconds timeSpan) by (apply Z.div_pos; lia).
  pose proof (GetMultiplier_nonneg (utils.seconds timeSpan) config Hbits) as Hmult.
  pose proof (wrap_nonneg BlockTarget_bits (TotalChainImportance config) Hbits) as Htotal.
  assert (Himportance : forall difficulty importance1 importance2,
             0 <= importance1 <= importance2 ->
             utils.seconds timeSpan * importance2
               * GetMultiplier (utils.seconds timeSpan) config * 8999999998
               < 2 ^ BlockTarget_bits ->
             target_le (CalculateTarget timeSpan difficulty importance1 config)
                       (CalculateTarget timeSpan difficulty importance2 config));
    [| split; [exact Himportance | split]].
  - intros difficulty importance1 importance2 Himp Hfits.
    rewrite !CalculateTarget_unfold.
    set (multiplier := GetMultiplier (utils.seconds timeSpan) config) in *.
    assert (Hmono : utils.seconds timeSpan * importance1 * multiplier * 8999999998
                    <= utils.seconds timeSpan * importance2 * multiplier * 8999999998).
    { repeat apply Z.mul_le_mono_nonneg_r; try lia.
      apply Z.mul_le_mono_nonneg_l; lia. }
    assert (0 <= utils.seconds timeSpan * importance1 * multiplier * 8999999998).
    { repeat apply Z.mul_nonneg_nonneg; lia. }
    rewrite (BlockTarget_small
               (utils.seconds timeSpan * importance1 * multiplier * 8999999998)) by lia.
    rewrite (BlockTarget_small
               (utils.seconds timeSpan * importance2 * multiplier * 8999999998)) by lia.
    unfold BlockTarget_div.
    fold (BlockTarget (TotalChainImportance config)) in Htotal.
    destruct (Z.eqb_spec (BlockTarget (TotalChainImportance config)) 0); [exact I |].
    pose proof (wrap_nonneg BlockTarget_bits difficulty Hbits) as Hdiff.
    fold (BlockTarget difficulty) in Hdiff.
    destruct (Z.eqb_spec (BlockTarget difficulty) 0); [exact I |].
    cbn [target_le].
    apply Z.div_le_mono; [lia |]. apply Z.div_le_mono; lia.
  - intros Hwide Hspan difficulty importance1 importance2 Himp Hmax.
    apply Himportance; [exact Himp |].
    apply CalculateTarget_product_fits; unfold is_uint64; lia.
  - intros importance difficulty1 difficulty2 Hdiff Hfits.
    rewrite !CalculateTarget_unfold.
    set (product := utils.seconds timeSpan * importance
                    * GetMultiplier (utils.seconds timeSpan) config * 8999999998).
    pose proof (wrap_nonneg BlockTarget_bits product Hbits) as Hproduct.
    fold (BlockTarget product) in Hproduct.
    unfold BlockTarget_div.
    fold (BlockTarget (TotalChainImportance config)) in Htotal.
    destruct (Z.eqb_spec (BlockTarget (TotalChainImportance config)) 0); [exact I |].
    assert (H1 : BlockTarget difficulty1 = difficulty1) by (apply BlockTarget_small; lia).
    assert (H2 : BlockTarget difficulty2 = difficulty2) by (apply BlockTarget_small; lia).
    rewrite H1, H2.
    destruct (Z.eqb_spec difficulty1 0); [lia |].
    destruct (Z.eqb_spec difficulty2 0); [lia |].
    cbn [target_le].
    apply Z.div_le_compat_l; [| lia].
    apply Z.div_pos; lia.
Qed.

(** With a zero importance and nonzero divisors the target is zero. *)
Lemma CalculateTarget_zero_importance (timeSpan : utils.TimeSpan) (difficulty : Z)
    (config : BlockChainConfiguration) :
  64 <= BlockTarget_bits ->
  0 < TotalChainImportance config < 2 ^ 64 -> 0 < difficulty < 2 ^ 64 ->
  CalculateTarget timeSpan difficulty 0 config = Some 0.
Proof.
  intros Hbits Htotal Hdiff. rewrite CalculateTarget_unfold.
  rewrite Z.mul_0_r, !Z.mul_0_l, BlockTarget_zero.
  rewrite !BlockTarget_uint64 by (unfold is_uint64; lia).
  unfold BlockTarget_div.
  destruct (Z.eqb_spec (TotalChainImportance config) 0); [lia |].
  rewrite Z.div_0_l by lia.
  destruct (Z.eqb_spec difficulty 0); [lia | reflexivity].
Qed.

Section Predicate.

Variable Log2TimesPowerOfTwo : Z -> Z -> Z.

Local Abbreviation BlockHitPredicate :=
  (chain.BlockHitPredicate Log2TimesPowerOfTwo BlockTarget_bits ScaledSmoother).
Local Abbreviation BlockHitPredicate_context :=
  (chain.BlockHitPredicate_context Log2TimesPowerOfTwo BlockTarget_bits ScaledSmoother).

(** C4. When the current block is not later than its parent, the block
    overload of [CalculateTarget] returns 0 whatever the importance, and
    [BlockHitPredicate] returns false whatever the generation hash and the
    importance lookup. *)
Theorem BlockHitPredicate_rejects_noncausal (self : BlockHitPredicate_t)
    (parent block : Block) (generationHash : Hash256) :
  Timestamp block <= Timestamp parent ->
  (forall importance,
      CalculateTarget_blocks parent block importance (m_config self) = Some 0)
  /\ BlockHitPredicate self parent block generationHash = Some false.
Proof.
  intros Hle.
  assert (Htarget : forall importance,
             CalculateTarget_blocks parent block importance (m_config self) = Some 0).
  { intros importance. unfold chain.CalculateTarget_blocks.
    destruct (Z.leb_spec (Timestamp block) (Timestamp parent)); [| lia].
    now rewrite BlockTarget_zero. }
  split; [exact Htarget |].
  unfold chain.BlockHitPredicate. rewrite Htarget. f_equal.
  pose proof (CalculateHit_range Log2TimesPowerOfTwo generationHash) as Hhit.
  unfold is_uint64 in Hhit. apply Z.ltb_ge. lia.
Qed.

(** C9, as amended.  If the importance lookup returns 0 for the block's
    signer and height, then the target is exactly 0 and [BlockHitPredicate]
    returns false, provided the current block is not later than its parent
    or both the total chain importance and the block's difficulty are
    nonzero. *)
Theorem BlockHitPredicate_rejects_zero_importance (self : BlockHitPredicate_t)
    (parent block : Block) (generationHash : Hash256) :
  64 <= BlockTarget_bits ->
  m_importanceLookup self (Signer block) (Height block) = 0 ->
  Timestamp block <= Timestamp parent
  \/ (0 < TotalChainImportance (m_config self) < 2 ^ 64
      /\ 0 < Difficulty block < 2 ^ 64) ->
  CalculateTarget_blocks parent block 0 (m_config self) = Some 0
  /\ BlockHitPredicate self parent block generationHash = Some false.
Proof.
  intros Hbits Hlookup Hcases.
  assert (Htarget : CalculateTarget_blocks parent block 0 (m_config self) = Some 0).
  { unfold chain.CalculateTarget_blocks.
    destruct (Z.leb_spec (Timestamp block) (Timestamp parent)) as [Hle | Hlt].
    - now rewrite BlockTarget_zero.
    - destruct Hcases as [Hle | [Htotal Hdiff]]; [lia |].
      now apply CalculateTarget_zero_importance. }
  split; [exact Htarget |].
  unfold chain.BlockHitPredicate. rewrite Hlookup, Htarget. f_equal.
  pose proof (CalculateHit_range Log2TimesPowerOfTwo generationHash) as Hhit.
  unfold is_uint64 in Hhit. apply Z.ltb_ge. lia.
Qed.

(** The same for the overload taking a [BlockHitContext]. *)
Lemma BlockHitPredicate_context_rejects_zero_importance (self : BlockHitPredicate_t)
    (context : BlockHitContext) :
  64 <= BlockTarget_bits ->
  m_importanceLookup self (ctx_Signer context) (ctx_Height context) = 0 ->
  0 < TotalChainImportance (m_config self) < 2 ^ 64 ->
  0 < ctx_Difficulty context < 2 ^ 64 ->
  BlockHitPredicate_context self context = Some false.
Proof.
  intros Hbits Hlookup Htotal Hdiff.
  unfold chain.BlockHitPredicate_context.
  rewrite Hlookup, CalculateTarget_zero_importance by assumption. f_equal.
  pose proof (CalculateHit_range Log2TimesPowerOfTwo (ctx_GenerationHash context)) as Hhit.
  unfold is_uint64 in Hhit. apply Z.ltb_ge. lia.
Qed.

End Predicate.

End TargetProperties.

(** ** NotificationObserverAdapter *)

Section AdapterProperties.
Import observers local.

Variables WeakEntityInfo Notification NotificationType ObserverContext Failure : Type.
Variable Notification_Type : Notification -> NotificationType.
Variable IsSet : NotificationType -> NotificationChannel -> bool.

Local Abbreviation Observer_t State :=
  (NotificationObserver Notification ObserverContext Failure State).
Local Abbreviation Adapter_t State :=
  (NotificationObserverAdapter_t WeakEntityInfo Notification ObserverContext Failure State).
Local Abbreviation NotificationObserverAdapter_notify :=
  (local.NotificationObserverAdapter_notify Notification_Type IsSet).
Local Abbreviation calls_of_notify := (local.calls_of_notify Notification_Type IsSet).

(** The notifications raised on the Observer channel. *)
Local Abbreviation on_observer_channel :=
  (filter (fun notification => IsSet (Notification_Type notification) Observer)).

Section WithState.

Variable State : Type.

Lemma for_each_app {A : Type} (first second : list A) (body : A -> Effect Failure State)
    (s : State) :
  for_each (first ++ second) body s
  = and_then (for_each first body) (for_each second body) s.
Proof.
  revert s. induction first as [|item rest IH]; intros s; cbn [app for_each].
  - reflexivity.
  - unfold and_then. destruct (body item s) as [s' [|failure]]; [| reflexivity].
    rewrite IH. reflexivity.
Qed.

(** Publishing through the filtering subscriber is handing the observer
    the notifications of the Observer channel. *)
Lemma publish_filters (observer : Observer_t State) (context : ObserverContext)
    (published : list Notification) (s : State) :
  for_each published
    (ObservingNotificationSubscriber_notify Notification_Type IsSet
       {| m_observer := observer; m_context := context |}) s
  = observe observer context (on_observer_channel published) s.
Proof.
  revert s. induction published as [|notification rest IH]; intros s.
  - reflexivity.
  - cbn [for_each filter]. unfold ObservingNotificationSubscriber_notify at 1.
    cbn [m_observer m_context].
    destruct (IsSet (Notification_Type notification) Observer); cbn [negb].
    + unfold local.observe. cbn [for_each]. unfold and_then.
      destruct (notify observer notification context s) as [s' [|failure]];
        [apply IH | reflexivity].
    + unfold and_then, skip. apply IH.
Qed.

End WithState.

(** A recording observer changes the state as the observer it wraps does,
    and appends what it was handed, up to and including a notification on
    which the observer raised. *)
Lemma notify_recording (State : Type) (observer : Observer_t State)
    (context : ObserverContext) (notification : Notification) (log : list Notification)
    (s : State) :
  notify (recording observer) notification context (s, log)
  = (let (s', outcome) := notify observer notification context s in
     ((s', log ++ [notification]), outcome)).
Proof. reflexivity. Qed.

Lemma observe_recording_returned (State : Type) (observer : Observer_t State)
    (context : ObserverContext) (delivered log : list Notification) (s s' : State) :
  observe observer context delivered s = (s', Returned) ->
  observe (recording observer) context delivered (s, log)
  = ((s', log ++ delivered), Returned).
Proof.
  revert s log. induction delivered as [|notification rest IH]; intros s log Hrun.
  - cbn in Hrun |- *. unfold skip in *. rewrite app_nil_r. congruence.
  - unfold local.observe in *. cbn [for_each] in *. unfold and_then in *.
    rewrite notify_recording.
    destruct (notify observer notification context s) as [s1 [|failure]];
      [| discriminate].
    rewrite (IH s1 (log ++ [notification]) Hrun), <- app_assoc. reflexivity.
Qed.

Lemma observe_recording_raised (State : Type) (observer : Observer_t State)
    (context : ObserverContext) (before after log : list Notification)
    (failing : Notification) (s s_k s_failed : State) (failure : Failure) :
  observe observer context before s = (s_k, Returned) ->
  notify observer failing context s_k = (s_failed, Raised failure) ->
  observe observer context (before ++ failing :: after) s = (s_failed, Raised failure)
  /\ observe (recording observer) context (before ++ failing :: after) (s, log)
     = ((s_failed, log ++ before ++ [failing]), Raised failure).
Proof.
  intros Hbefore Hfail.
  pose proof (observe_recording_returned _ _ _ _ log _ _ Hbefore) as Hrecorded.
  unfold local.observe in *. rewrite !for_each_app.
  unfold and_then. rewrite Hbefore, Hrecorded.
  cbn [for_each]. unfold and_then.
  rewrite notify_recording, Hfail, app_assoc. split; reflexivity.
Qed.

(** C1. The adapter's [notify] hands its observer exactly the published
    notifications whose type has the Observer channel set, in the order of
    publication: it acts on the state as the observer does on that
    subsequence, and when the call returns, the observer was called with
    that subsequence, each notification once. *)
Theorem NotificationObserverAdapter_notify_forwards (State : Type)
    (self : Adapter_t State) (entityInfo : WeakEntityInfo) (context : ObserverContext)
    (s : State) :
  let published := notifications_of (m_pPub self) entityInfo in
  NotificationObserverAdapter_notify self entityInfo context s
  = observe (m_pObserver self) context (on_observer_channel published) s
  /\ (snd (NotificationObserverAdapter_notify self entityInfo context s) = Returned ->
      calls_of_notify (m_pObserver self) (m_pPub self)
        entityInfo context s
      = on_observer_channel published).
Proof.
  intros published.
  assert (Hrun : NotificationObserverAdapter_notify self entityInfo context s
                 = observe (m_pObserver self) context
                     (on_observer_channel published) s).
  { unfold local.NotificationObserverAdapter_notify, publish, as_subscriber.
    cbn [subscriber_notify]. apply publish_filters. }
  split; [exact Hrun |].
  rewrite Hrun. intros Hreturned.
  unfold local.calls_of_notify, local.NotificationObserverAdapter_notify, publish, as_subscriber.
  cbn [subscriber_notify m_pObserver m_pPub]. fold published.
  rewrite publish_filters.
  destruct (observe (m_pObserver self) context (on_observer_channel published) s)
    as [s' outcome] eqn:Hobserve.
  cbn [snd] in Hreturned. subst outcome.
  rewrite (observe_recording_returned _ _ _ _ [] _ _ Hobserve). reflexivity.
Qed.

(** C5. If the observer raises on a notification of the Observer channel,
    having returned on those published before it, then the adapter's
    [notify] ends with that failure, in the state the observer left, and the
    observer was called with nothing after the failing notification and with
    the failing notification only once. *)
Theorem NotificationObserverAdapter_notify_propagates (State : Type)
    (self : Adapter_t State) (entityInfo : WeakEntityInfo) (context : ObserverContext)
    (before after : list Notification) (failing : Notification)
    (s s_k s_failed : State) (failure : Failure) :
  notifications_of (m_pPub self) entityInfo = before ++ failing :: after ->
  IsSet (Notification_Type failing) Observer = true ->
  observe (m_pObserver self) context (on_observer_channel before) s
    = (s_k, Returned) ->
  notify (m_pObserver self) failing context s_k = (s_failed, Raised failure) ->
  NotificationObserverAdapter_notify self entityInfo context s = (s_failed, Raised failure)
  /\ calls_of_notify (m_pObserver self) (m_pPub self)
       entityInfo context s
     = on_observer_channel before ++ [failing].
Proof.
  intros Hpublished Hchannel Hbefore Hfail.
  assert (Hfiltered : on_observer_channel (before ++ failing :: after)
                      = on_observer_channel before ++ failing :: on_observer_channel after).
  { rewrite filter_app. cbn [filter]. now rewrite Hchannel. }
  destruct (observe_recording_raised _ _ context _ (on_observer_channel after) []
              _ _ _ _ _ Hbefore Hfail) as [Hplain Hrecorded].
  split.
  - unfold local.NotificationObserverAdapter_notify, publish, as_subscriber.
    cbn [subscriber_notify]. rewrite publish_filters, Hpublished, Hfiltered. exact Hplain.
  - unfold local.calls_of_notify, local.NotificationObserverAdapter_notify, publish, as_subscriber.
    cbn [subscriber_notify m_pObserver m_pPub].
    rewrite publish_filters, Hpublished, Hfiltered, Hrecorded. reflexivity.
Qed.

End AdapterProperties.

(** ** The properties on concrete inputs *)

(** Hit of a hash with three leading zero bits, and of a hash whose first
    nonzero bit lies in its last four bytes. *)
Lemma CalculateHit_formula_witness :
  chain.CalculateHit utils.Log2TimesPowerOfTwo examples.sample_hash = 47621272873513591
  /\ chain.CalculateHit utils.Log2TimesPowerOfTwo samples.tail_hash = 3096543934430838249.
Proof.
  split.
  - destruct (CalculateHit_formula utils.Log2TimesPowerOfTwo examples.sample_hash)
      as [Hhit _]; [by_evaluation | by_evaluation |].
    rewrite Hhit. by_evaluation.
  - destruct (CalculateHit_formula utils.Log2TimesPowerOfTwo samples.tail_hash)
      as [Hhit _]; [by_evaluation | by_evaluation |].
    rewrite Hhit. by_evaluation.
Defined.

(** C3 fails as stated: the first nonzero bit of the hash of thirty zero
    bytes followed by 01 02 is at position 247 and its window is 258; the hit
    is formed with 224, the position [ExtractGenerationHashInfo] reports, so
    it lies below the expression formed with 247, whatever logarithm between
    0 and [32 * 2^54] is used on the window. *)
Lemma CalculateHit_formula_counterexample :
  chain.NumLeadingZeros samples.tail_hash = 247
  /\ chain.ExtractGenerationHashInfo samples.tail_hash
     = {| chain.GenerationHashInfo.Value := 258;
          chain.GenerationHashInfo.NumLeadingZeros := 224 |}
  /\ chain.CalculateHit utils.Log2TimesPowerOfTwo samples.tail_hash = 3096543934430838249
  /\ ((32 + 247) * 2 ^ 54 - utils.Log2TimesPowerOfTwo 258 54)
       * 10000000000000000 / 14426950408889634 = 3383736413766444774
  /\ (forall Log2TimesPowerOfTwo : Z -> Z -> Z,
      0 <= Log2TimesPowerOfTwo 258 54 <= 32 * 2 ^ 54 ->
      chain.CalculateHit Log2TimesPowerOfTwo samples.tail_hash
      < ((32 + 247) * 2 ^ 54 - Log2TimesPowerOfTwo 258 54)
        * 10000000000000000 / 14426950408889634).
Proof.
  split; [by_evaluation |]. split; [by_evaluation |]. split; [by_evaluation |].
  split; [by_evaluation |].
  intros Log2TimesPowerOfTwo Hlog.
  assert (Etail : chain.ExtractGenerationHashInfo samples.tail_hash
                  = {| chain.GenerationHashInfo.Value := 258;
                       chain.GenerationHashInfo.NumLeadingZeros := 224 |}) by reflexivity.
  rewrite (CalculateHit_general _ samples.tail_hash);
    rewrite ?Etail;
    cbn [chain.GenerationHashInfo.Value chain.GenerationHashInfo.NumLeadingZeros];
    try lia.
  apply divide_by_log2e_lt. change (2 ^ 54) with 18014398509481984 in *. lia.
Qed.

(** The all-zero hash and the all-ones hash. *)
Lemma CalculateHit_edge_cases_witness :
  chain.CalculateHit utils.Log2TimesPowerOfTwo examples.zero_hash = 2 ^ 64 - 1
  /\ chain.CalculateHit utils.Log2TimesPowerOfTwo examples.ones_hash = 0.
Proof.
  split.
  - apply (proj1 (CalculateHit_edge_cases utils.Log2TimesPowerOfTwo examples.zero_hash)).
    by_evaluation.
  - apply (proj2 (proj2 (proj2
             (CalculateHit_edge_cases utils.Log2TimesPowerOfTwo examples.ones_hash)))).
    by_evaluation.
Defined.


(** Between two hashes with a nonzero first byte, the logarithm being
    within [31 * 2^54, 32 * 2^54] on windows whose top bit is set, the hash
    with more leading zero bits has the larger hit although its window is the
    larger one. *)
Lemma CalculateHit_more_leading_zeros (Log2TimesPowerOfTwo : Z -> Z -> Z) :
  31 * 2 ^ 54 <= Log2TimesPowerOfTwo 0x80000000 54 <= 32 * 2 ^ 54 ->
  0 <= Log2TimesPowerOfTwo 0xC0000000 54 <= 32 * 2 ^ 54 ->
  chain.CalculateHit Log2TimesPowerOfTwo examples.high_hash
  < chain.CalculateHit Log2TimesPowerOfTwo examples.low_hash.
Proof.
  intros Hhigh Hlow.
  assert (Ehigh : chain.ExtractGenerationHashInfo examples.high_hash
                  = {| chain.GenerationHashInfo.Value := 0x80000000;
                       chain.GenerationHashInfo.NumLeadingZeros := 0 |}) by reflexivity.
  assert (Elow : chain.ExtractGenerationHashInfo examples.low_hash
                 = {| chain.GenerationHashInfo.Value := 0xC0000000;
                      chain.GenerationHashInfo.NumLeadingZeros := 7 |}) by reflexivity.
  rewrite (CalculateHit_general _ examples.high_hash), (CalculateHit_general _ examples.low_hash);
    rewrite ?Ehigh, ?Elow; cbn [chain.GenerationHashInfo.Value chain.GenerationHashInfo.NumLeadingZeros];
    try lia.
  apply divide_by_log2e_lt. change (2 ^ 54) with 18014398509481984 in *. lia.
Qed.


(** Fifteen seconds at a difficulty of 10^14. *)
Lemma CalculateScore_spec_witness :
  chain.CalculateScore examples.parent_block examples.stale_block = 0
  /\ chain.CalculateScore examples.parent_block examples.child_block = 99999999999985.
Proof.
  split.
  - apply (proj1 (CalculateScore_spec examples.parent_block examples.stale_block
                    ltac:(by_evaluation) ltac:(by_evaluation) ltac:(by_evaluation))).
    by_evaluation.
  - destruct (proj2 (CalculateScore_spec examples.parent_block examples.child_block
                       ltac:(by_evaluation) ltac:(by_evaluation) ltac:(by_evaluation))
                ltac:(by_evaluation)) as [_ Hexact].
    rewrite Hexact; by_evaluation.
Defined.

(** Sixty seconds at a difficulty of ten. *)
Lemma CalculateScore_wraps_witness :
  chain.CalculateScore examples.parent_block examples.easy_block = 2 ^ 64 - 50.
Proof.
  rewrite (proj1 (CalculateScore_wraps examples.parent_block examples.easy_block
                    ltac:(by_evaluation) ltac:(by_evaluation) ltac:(by_evaluation)
                    ltac:(by_evaluation) ltac:(by_evaluation))).
  by_evaluation.
Defined.

(** A block that is not later than its parent, signed with importance. *)
Lemma BlockHitPredicate_rejects_noncausal_witness :
  chain.BlockHitPredicate utils.Log2TimesPowerOfTwo 128 examples.unused_smoother
    (examples.predicate examples.config 1000)
    examples.parent_block examples.stale_block examples.ones_hash
  = Some false.
Proof.
  apply (proj2 (BlockHitPredicate_rejects_noncausal 128 examples.unused_smoother
                  utils.Log2TimesPowerOfTwo (examples.predicate examples.config 1000)
                  examples.parent_block examples.stale_block examples.ones_hash
                  ltac:(by_evaluation))).
Defined.

(** Doubling the importance, and doubling the difficulty. *)
Lemma CalculateTarget_monotone_witness :
  chain.target_le
    (chain.CalculateTarget 128 examples.unused_smoother (utils.FromMilliseconds 15000)
       100000000000000 1000 examples.config)
    (chain.CalculateTarget 128 examples.unused_smoother (utils.FromMilliseconds 15000)
       100000000000000 2000 examples.config)
  /\ chain.target_le
       (chain.CalculateTarget 128 examples.unused_smoother (utils.FromMilliseconds 15000)
          200000000000000 1000 examples.config)
       (chain.CalculateTarget 128 examples.unused_smoother (utils.FromMilliseconds 15000)
          100000000000000 1000 examples.config).
Proof.
  destruct (CalculateTarget_monotone 128 examples.unused_smoother
              (utils.FromMilliseconds 15000) examples.config
              ltac:(by_evaluation) ltac:(by_evaluation))
    as (Himportance & _ & Hdifficulty).
  split.
  - apply Himportance; by_evaluation.
  - apply Hdifficulty; by_evaluation.
Defined.

(** C7 fails as stated when [BlockTarget] has 128 bits: fifteen seconds at
    a difficulty of 10^14 and without smoothing, the product of the
    importance 136643000 no longer fits, and the larger importance gets the
    smaller target. *)
Lemma CalculateTarget_importance_counterexample :
  136642000 < 136643000
  /\ chain.CalculateTarget 128 examples.unused_smoother (utils.FromMilliseconds 15000)
       100000000000000 136642000 examples.config = Some 378090000
  /\ chain.CalculateTarget 128 examples.unused_smoother (utils.FromMilliseconds 15000)
       100000000000000 136643000 examples.config = Some 1248
  /\ ~ chain.target_le
        (chain.CalculateTarget 128 examples.unused_smoother (utils.FromMilliseconds 15000)
           100000000000000 136642000 examples.config)
        (chain.CalculateTarget 128 examples.unused_smoother (utils.FromMilliseconds 15000)
           100000000000000 136643000 examples.config).
Proof.
  split; [reflexivity |]. split; [reflexivity |]. split; [reflexivity |].
  vm_compute. intros Hle. apply Hle. reflexivity.
Qed.

(** A later block of a signer without importance, under a configuration
    with a total chain importance. *)
Lemma BlockHitPredicate_rejects_zero_importance_witness :
  chain.BlockHitPredicate utils.Log2TimesPowerOfTwo 128 examples.unused_smoother
    (examples.predicate examples.config 0)
    examples.parent_block examples.child_block examples.ones_hash
  = Some false.
Proof.
  apply (proj2 (BlockHitPredicate_rejects_zero_importance 128 examples.unused_smoother
                  utils.Log2TimesPowerOfTwo (examples.predicate examples.config 0)
                  examples.parent_block examples.child_block examples.ones_hash
                  ltac:(by_evaluation) ltac:(by_evaluation)
                  ltac:(right; by_evaluation))).
Defined.

(** C9 fails as stated: under a configuration whose total chain importance
    is zero, the lookup returning importance 0 for a later block, the
    division raises and [BlockHitPredicate] returns nothing, whether
    [BlockTarget] has 128 or 256 bits. *)
Lemma BlockHitPredicate_zero_importance_counterexample :
  chain.m_importanceLookup (examples.predicate examples.config_without_importance 0)
    (model.Signer examples.child_block) (model.Height examples.child_block) = 0
  /\ chain.BlockHitPredicate utils.Log2TimesPowerOfTwo 128 examples.unused_smoother
       (examples.predicate examples.config_without_importance 0)
       examples.parent_block examples.child_block examples.ones_hash
     = None
  /\ chain.BlockHitPredicate utils.Log2TimesPowerOfTwo 256 examples.unused_smoother
       (examples.predicate examples.config_without_importance 0)
       examples.parent_block examples.child_block examples.ones_hash
     = None.
Proof. by_evaluation. Qed.

(** The spec's example: of N1 (Validator), N2 (Observer) and N3 (Observer
    and Validator), the observer is called with N2 and N3, in that order. *)
Lemma NotificationObserverAdapter_notify_forwards_witness :
  local.calls_of_notify fst examples.IsSet
    examples.counting_observer examples.publisher tt tt 0%nat
  = [examples.N2; examples.N3].
Proof.
  exact (proj2 (NotificationObserverAdapter_notify_forwards
                  unit examples.Notification Z unit string fst examples.IsSet nat
                  {| local.m_pObserver := examples.counting_observer;
                     local.m_pPub := examples.publisher |} tt tt 0%nat)
           eq_refl).
Defined.

(** The spec's example with an observer that raises on N2: the failure
    reaches the caller and N3 is not delivered. *)
Lemma NotificationObserverAdapter_notify_propagates_witness :
  local.NotificationObserverAdapter_notify fst examples.IsSet
    {| local.m_pObserver := examples.failing_observer;
       local.m_pPub := examples.publisher |} tt tt 0%nat
  = (1%nat, observers.Raised "rejected"%string)
  /\ local.calls_of_notify fst examples.IsSet
       examples.failing_observer examples.publisher tt tt 0%nat
     = [examples.N2].
Proof.
  exact (NotificationObserverAdapter_notify_propagates
           unit examples.Notification Z unit string fst examples.IsSet nat
           {| local.m_pObserver := examples.failing_observer;
              local.m_pPub := examples.publisher |} tt tt
           [examples.N1] [examples.N3] examples.N2 0%nat 0%nat 1%nat "rejected"%string
           eq_refl eq_refl eq_refl eq_refl).
Defined.

(** * Further properties *)

(** ** The hash as a number, its leading zeros and its window *)

Section HashValue.
Import model chain hashes.

Lemma be_value_range (hash : Hash256) (count : nat) (i : Z) :
  0 <= be_value hash count i < 2 ^ (8 * Z.of_nat count).
Proof.
  revert i. induction count as [|count IH]; intros i.
  - cbn. lia.
  - cbn [be_value]. pose proof (byte_at_range hash i) as Hb. pose proof (IH (i + 1)) as Hr.
    replace (8 * Z.of_nat (S count)) with (8 + 8 * Z.of_nat count) by lia.
    rewrite Z.pow_add_r by lia. change (2 ^ 8) with 256.
    assert (0 < 2 ^ (8 * Z.of_nat count)) by (apply Z.pow_pos_nonneg; lia).
    nia.
Qed.

Lemma be_value_zero (hash : Hash256) (count : nat) (i : Z) :
  (forall j, i <= j < i + Z.of_nat count -> byte_at hash j = 0) ->
  be_value hash count i = 0.
Proof.
  revert i. induction count as [|count IH]; intros i Hzero.
  - reflexivity.
  - cbn [be_value]. rewrite (Hzero i) by lia. rewrite IH; [lia |].
    intros j Hj. apply Hzero. lia.
Qed.

Lemma be_value_app (hash : Hash256) (high low : nat) (i : Z) :
  be_value hash (high + low) i
  = be_value hash high i * 2 ^ (8 * Z.of_nat low) + be_value hash low (i + Z.of_nat high).
Proof.
  revert i. induction high as [|high IH]; intros i.
  - cbn [Nat.add be_value]. rewrite Z.add_0_r. lia.
  - cbn [Nat.add be_value]. rewrite IH.
    replace (i + 1 + Z.of_nat high) with (i + Z.of_nat (S high)) by lia.
    replace (8 * Z.of_nat (high + low)) with (8 * Z.of_nat high + 8 * Z.of_nat low) by lia.
    rewrite Z.pow_add_r by lia. ring.
Qed.

Lemma be_value_4 (hash : Hash256) (i : Z) :
  be_value hash 4 i = ExtractFromHashAtPosition hash i.
Proof.
  rewrite ExtractFromHashAtPosition_bytes. cbn [be_value].
  replace (i + 1 + 1) with (i + 2) by lia. replace (i + 2 + 1) with (i + 3) by lia.
  change (8 * Z.of_nat 3) with 24. change (8 * Z.of_nat 2) with 16.
  change (8 * Z.of_nat 1) with 8. change (8 * Z.of_nat 0) with 0.
  change (2 ^ 0) with 1. lia.
Qed.

(** Below the first nonzero byte nothing contributes to the value. *)
Lemma Hash256_value_from (hash : Hash256) (k : Z) :
  0 <= k <= 32 -> (forall j, 0 <= j < k -> byte_at hash j = 0) ->
  Hash256_value hash = be_value hash (Z.to_nat (32 - k)) k.
Proof.
  intros Hk Hzero. unfold Hash256_value.
  replace 32%nat with (Z.to_nat k + Z.to_nat (32 - k))%nat by lia.
  rewrite be_value_app, be_value_zero.
  - rewrite (Z2Nat.id k) by lia. rewrite Z.mul_0_l, !Z.add_0_l. reflexivity.
  - intros j Hj. apply Hzero. lia.
Qed.

(** The leading zeros in terms of the value of the hash. *)
Lemma NumLeadingZeros_of_value (hash : Hash256) :
  (Hash256_value hash = 0 /\ NumLeadingZeros hash = 256)
  \/ (0 < Hash256_value hash
      /\ NumLeadingZeros hash = 255 - Z.log2 (Hash256_value hash)).
Proof.
  destruct (NumLeadingZeros_spec hash) as [[H256 Hzero] | (k & Hk & Hzero & Hbyte & Hval)].
  - left. split; [| exact H256]. unfold Hash256_value. apply be_value_zero.
    intros j Hj. apply Hzero. lia.
  - right.
    pose proof (byte_at_range hash k) as Hb.
    destruct (Log2_byte (byte_at hash k)) as [Hlog Hpow]; [lia |].
    set (l := utils.Log2 (byte_at hash k)) in *.
    rewrite (Hash256_value_from hash k) by (try lia; exact Hzero).
    replace (Z.to_nat (32 - k)) with (S (Z.to_nat (31 - k))) by lia.
    cbn [be_value].
    pose proof (be_value_range hash (Z.to_nat (31 - k)) (k + 1)) as Hrest.
    rewrite Z2Nat.id in * by lia.
    set (rest := be_value hash (Z.to_nat (31 - k)) (k + 1)) in *.
    set (m := 2 ^ (8 * (31 - k))) in *.
    assert (Hm : 0 < m) by (apply Z.pow_pos_nonneg; lia).
    assert (Hlow : 2 ^ (l + 8 * (31 - k)) <= byte_at hash k * m + rest).
    { rewrite Z.pow_add_r by lia. fold m. nia. }
    assert (Hhigh : byte_at hash k * m + rest < 2 ^ Z.succ (l + 8 * (31 - k))).
    { replace (Z.succ (l + 8 * (31 - k))) with (l + 1 + 8 * (31 - k)) by lia.
      rewrite Z.pow_add_r by lia. fold m. nia. }
    assert (Hpos : 0 < 2 ^ (l + 8 * (31 - k))) by (apply Z.pow_pos_nonneg; lia).
    split; [lia |].
    rewrite (Z.log2_unique _ (l + 8 * (31 - k))) by lia.
    lia.
Qed.

(** The window of a five-byte prefix whose first byte has its highest
    set bit at position [l]. *)
Lemma window_of_five_bytes (b0 b1 b2 b3 b4 l : Z) :
  0 <= b0 < 256 -> 0 <= b1 < 256 -> 0 <= b2 < 256 -> 0 <= b3 < 256 -> 0 <= b4 < 256 ->
  0 <= l <= 7 -> 2 ^ l <= b0 < 2 ^ (l + 1) ->
  uint32 (uint32 (Z.shiftl (b0 * 2 ^ 24 + b1 * 2 ^ 16 + b2 * 2 ^ 8 + b3) (7 - l))
          + Z.shiftr b4 (8 - (7 - l)))
  = (b0 * 2 ^ 32 + b1 * 2 ^ 24 + b2 * 2 ^ 16 + b3 * 2 ^ 8 + b4) / 2 ^ (l + 1).
Proof.
  intros H0 H1 H2 H3 H4 Hl Hpow.
  rewrite Z.shiftl_mul_pow2, Z.shiftr_div_pow2 by lia.
  unfold uint32, wrap.
  change (2 ^ 8) with 256; change (2 ^ 16) with 65536; change (2 ^ 24) with 16777216.
  change (2 ^ 32) with 4294967296.
  assert (Hcases : l = 0 \/ l = 1 \/ l = 2 \/ l = 3 \/ l = 4 \/ l = 5 \/ l = 6 \/ l = 7) by lia.
  destruct Hcases as [E | [E | [E | [E | [E | [E | [E | E]]]]]]];
    rewrite E in *; cbn in Hpow |- *; Z.div_mod_to_equations; lia.
Qed.

(** The window in terms of the value of the hash. *)
Lemma window_of_value (hash : Hash256) :
  GenerationHashInfo.Value (ExtractGenerationHashInfo hash)
  = Hash256_value hash
    / 2 ^ (224 - GenerationHashInfo.NumLeadingZeros (ExtractGenerationHashInfo hash)).
Proof.
  destruct (Z.lt_ge_cases (NumLeadingZeros hash) 224) as [Hlt | Hge].
  - unfold ExtractGenerationHashInfo.
    destruct (Z.leb_spec 224 (NumLeadingZeros hash)) as [Hge | _]; [lia |].
    cbn [GenerationHashInfo.Value GenerationHashInfo.NumLeadingZeros].
    destruct (NumLeadingZeros_spec hash) as [[H256 _] | (k & Hk & Hzero & Hbyte & Hval)];
      [lia |].
    pose proof (byte_at_range hash k) as Hb0.
    destruct (Log2_byte (byte_at hash k)) as [Hlog Hpow]; [lia |].
    set (l := utils.Log2 (byte_at hash k)) in *.
    assert (Hk27 : k <= 27) by lia.
    assert (Hq : NumLeadingZeros hash / 8 = k) by (rewrite Hval; Z.div_mod_to_equations; lia).
    assert (Hr : NumLeadingZeros hash mod 8 = 7 - l)
      by (rewrite Hval; Z.div_mod_to_equations; lia).
    rewrite Hq, Hr, ExtractFromHashAtPosition_bytes.
    rewrite window_of_five_bytes by (try apply byte_at_range; lia).
    rewrite (Hash256_value_from hash k) by (try lia; exact Hzero).
    replace (Z.to_nat (32 - k)) with (5 + Z.to_nat (27 - k))%nat by lia.
    rewrite be_value_app.
    pose proof (be_value_range hash (Z.to_nat (27 - k)) (k + Z.of_nat 5)) as Hrest.
    set (rest := be_value hash (Z.to_nat (27 - k)) (k + Z.of_nat 5)) in *.
    rewrite Z2Nat.id in * by lia.
    replace (224 - NumLeadingZeros hash) with (8 * (27 - k) + (l + 1)) by lia.
    rewrite (Z.pow_add_r 2 (8 * (27 - k)) (l + 1)) by lia.
    assert (Hm : 0 < 2 ^ (8 * (27 - k))) by (apply Z.pow_pos_nonneg; lia).
    assert (Hn : 0 < 2 ^ (l + 1)) by (apply Z.pow_pos_nonneg; lia).
    rewrite <- (Z.div_div _ (2 ^ (8 * (27 - k))) (2 ^ (l + 1))) by lia.
    rewrite Z.div_add_l by lia.
    rewrite (Z.div_small rest) by lia.
    rewrite Z.add_0_r. f_equal.
    cbn [be_value].
    replace (k + 1 + 1) with (k + 2) by lia. replace (k + 2 + 1) with (k + 3) by lia.
    replace (k + 3 + 1) with (k + 4) by lia.
    change (8 * Z.of_nat 4) with 32. change (8 * Z.of_nat 3) with 24.
    change (8 * Z.of_nat 2) with 16. change (8 * Z.of_nat 1) with 8.
    change (8 * Z.of_nat 0) with 0. change (2 ^ 0) with 1. lia.
  - destruct (ExtractGenerationHashInfo_tail hash Hge) as [-> ->].
    change (224 - 224) with 0. change (2 ^ 0) with 1. rewrite Z.div_1_r.
    rewrite <- be_value_4. unfold Hash256_value.
    change 32%nat with (28 + 4)%nat. rewrite be_value_app, (be_value_zero hash 28 0);
      [reflexivity |].
    intros j Hj.
    destruct (NumLeadingZeros_spec hash) as [[_ Hzero] | (k & Hk & Hzero & Hbyte & Hval)].
    + apply Hzero. lia.
    + pose proof (byte_at_range hash k).
      destruct (Log2_byte (byte_at hash k)) as [Hlog _]; [lia |].
      apply Hzero. lia.
Qed.

(** X1. [NumLeadingZeros] counts the leading zero bits of the hash read as
    a 256-bit number, most significant byte first: it is 256 for the zero
    hash, and otherwise 255 minus the position of the highest set bit. *)
Theorem NumLeadingZeros_counts_leading_zero_bits (hash : Hash256) :
  (Hash256_value hash = 0 /\ NumLeadingZeros hash = 256)
  \/ (0 < Hash256_value hash
      /\ NumLeadingZeros hash = 255 - Z.log2 (Hash256_value hash)).
Proof. exact (NumLeadingZeros_of_value hash). Qed.

(** X2. [ExtractFromHashAtPosition] reads the four bytes from [index] on as
    one 32-bit number, most significant byte first: swapping the bytes undoes
    the little-endian load. *)
Theorem ExtractFromHashAtPosition_big_endian (hash : Hash256) (index : Z) :
  ExtractFromHashAtPosition hash index = be_value hash 4 index
  /\ 0 <= ExtractFromHashAtPosition hash index < 2 ^ 32.
Proof.
  split; [symmetry; apply be_value_4 | apply ExtractFromHashAtPosition_range].
Qed.

(** X3. The window [ExtractGenerationHashInfo] extracts is the hash, read
    as a 256-bit number, without its [224 - NumLeadingZeros] lowest bits,
    [NumLeadingZeros] being the position it reports (the position of the
    first set bit, capped at 224): the 32 bits from the first set bit on, or
    the last four bytes when the first set bit lies in them.  The reported
    position never exceeds 224 and the window fits 32 bits. *)
Theorem ExtractGenerationHashInfo_window_of_value (hash : Hash256) :
  let hashInfo := ExtractGenerationHashInfo hash in
  GenerationHashInfo.NumLeadingZeros hashInfo = Z.min (NumLeadingZeros hash) 224
  /\ GenerationHashInfo.Value hashInfo
     = Hash256_value hash / 2 ^ (224 - GenerationHashInfo.NumLeadingZeros hashInfo)
  /\ 0 <= GenerationHashInfo.Value hashInfo < 2 ^ 32.
Proof.
  intros hashInfo. subst hashInfo. split; [| split].
  - destruct (Z.lt_ge_cases (NumLeadingZeros hash) 224) as [Hlt | Hge].
    + destruct (ExtractGenerationHashInfo_window hash Hlt) as [-> _]. lia.
    + destruct (ExtractGenerationHashInfo_tail hash Hge) as [-> _]. lia.
  - apply window_of_value.
  - apply hashInfo_range.
Qed.

End HashValue.

(** ** CalculateHit and the value of the hash *)

Section HitValue.
Import model chain hashes.

Variable Log2TimesPowerOfTwo : Z -> Z -> Z.

Local Abbreviation CalculateHit := (chain.CalculateHit Log2TimesPowerOfTwo).
Local Abbreviation hashInfo_Value hash :=
  (GenerationHashInfo.Value (ExtractGenerationHashInfo hash)).
Local Abbreviation hashInfo_NumLeadingZeros hash :=
  (GenerationHashInfo.NumLeadingZeros (ExtractGenerationHashInfo hash)).

(** X4. Between two hashes whose first set bit lies in the first 28 bytes
    and whose windows are not all ones, the hash that is the larger number
    has the smaller or equal hit, provided [Log2TimesPowerOfTwo] stays within
    [31 * 2^54, 32 * 2^54] on the two windows and does not decrease from the
    smaller window to the larger. *)
Theorem CalculateHit_antitone_in_value (hash1 hash2 : Hash256) :
  NumLeadingZeros hash1 < 224 -> NumLeadingZeros hash2 < 224 ->
  hashInfo_Value hash1 <> 0xFFFFFFFF -> hashInfo_Value hash2 <> 0xFFFFFFFF ->
  Hash256_value hash1 <= Hash256_value hash2 ->
  31 * 2 ^ 54 <= Log2TimesPowerOfTwo (hashInfo_Value hash1) 54 <= 32 * 2 ^ 54 ->
  31 * 2 ^ 54 <= Log2TimesPowerOfTwo (hashInfo_Value hash2) 54 <= 32 * 2 ^ 54 ->
  (hashInfo_Value hash1 <= hashInfo_Value hash2 ->
   Log2TimesPowerOfTwo (hashInfo_Value hash1) 54
   <= Log2TimesPowerOfTwo (hashInfo_Value hash2) 54) ->
  CalculateHit hash2 <= CalculateHit hash1.
Proof.
  intros Hlt1 Hlt2 Hones1 Hones2 Hvalue Hlog1 Hlog2 Hmono.
  destruct (ExtractGenerationHashInfo_window hash1 Hlt1) as [Hn1 Hw1].
  destruct (ExtractGenerationHashInfo_window hash2 Hlt2) as [Hn2 Hw2].
  pose proof (NumLeadingZeros_range hash1) as Hr1.
  pose proof (NumLeadingZeros_range hash2) as Hr2.
  pose proof (window_of_value hash1) as Hq1.
  pose proof (window_of_value hash2) as Hq2.
  rewrite Hn1 in Hq1. rewrite Hn2 in Hq2.
  assert (Hzeros : NumLeadingZeros hash2 <= NumLeadingZeros hash1).
  { destruct (NumLeadingZeros_of_value hash1) as [[_ E] | [Hpos1 E1]]; [lia |].
    destruct (NumLeadingZeros_of_value hash2) as [[_ E] | [Hpos2 E2]]; [lia |].
    pose proof (Z.log2_le_mono _ _ Hvalue). lia. }
  change (2 ^ 31) with 2147483648 in *. change (2 ^ 32) with 4294967296 in *.
  rewrite (CalculateHit_general _ hash1), (CalculateHit_general _ hash2);
    try lia; try (rewrite ?Hn1, ?Hn2; change (2 ^ 54) with 18014398509481984 in *; lia).
  rewrite Hn1, Hn2.
  apply Z.div_le_mono; [lia |].
  apply Z.mul_le_mono_nonneg_r; [lia |].
  destruct (Z.eq_dec (NumLeadingZeros hash1) (NumLeadingZeros hash2)) as [Esame | Hmore].
  - assert (hashInfo_Value hash1 <= hashInfo_Value hash2).
    { rewrite Hq1, Hq2, Esame. apply Z.div_le_mono; [| exact Hvalue].
      apply Z.pow_pos_nonneg; lia. }
    rewrite Esame. specialize (Hmono H). lia.
  - change (2 ^ 54) with 18014398509481984 in *. lia.
Qed.

(** X5. Unless the window is zero, the hit stays below 2^62, provided
    [Log2TimesPowerOfTwo] returns a nonnegative value not above
    [(32 + NumLeadingZeros) * 2^54]: only the zero hash has a hit of 2^62 or
    more. *)
Theorem CalculateHit_below_2_62 (hash : Hash256) :
  hashInfo_Value hash <> 0 ->
  0 <= Log2TimesPowerOfTwo (hashInfo_Value hash) 54
    <= (32 + hashInfo_NumLeadingZeros hash) * 2 ^ 54 ->
  0 <= CalculateHit hash < 2 ^ 62.
Proof.
  intros Hzero Hlog.
  destruct (Z.eq_dec (hashInfo_Value hash) 0xFFFFFFFF) as [Hones | Hones].
  - unfold chain.CalculateHit. rewrite Hones. cbn. lia.
  - rewrite CalculateHit_general by assumption.
    destruct (hashInfo_range hash) as [Hnlz _].
    pose proof (divide_by_log2e_le
                  ((32 + hashInfo_NumLeadingZeros hash) * 2 ^ 54
                   - Log2TimesPowerOfTwo (hashInfo_Value hash) 54)) as Hdiv.
    change (2 ^ 54) with 18014398509481984 in *.
    change (2 ^ 62) with 4611686018427387904.
    assert (Hstrict : ((32 + hashInfo_NumLeadingZeros hash) * 18014398509481984
                       - Log2TimesPowerOfTwo (hashInfo_Value hash) 54)
                      * 10000000000000000 / 14426950408889634
                      < 4611686018427387904).
    { apply Z.div_lt_upper_bound; lia. }
    lia.
Qed.

End HitValue.

(** ** More on CalculateScore *)

Section ScoreOrder.
Import model chain.

(** X6. While the elapsed whole seconds do not exceed the difficulty, the
    score of a block later than its parent grows with its difficulty and
    shrinks with the time elapsed since the parent. *)
Theorem CalculateScore_monotone (parent first second : Block) :
  is_uint64 (Timestamp parent) ->
  is_uint64 (Timestamp second) -> is_uint64 (Difficulty first) ->
  Timestamp parent < Timestamp first <= Timestamp second ->
  0 <= Difficulty second <= Difficulty first ->
  (Timestamp second - Timestamp parent) / 1000 <= Difficulty second ->
  CalculateScore parent second <= CalculateScore parent first.
Proof.
  unfold is_uint64. intros Hp Hs Hdf Htime Hdiff Hfits.
  assert (Hsecs : (Timestamp first - Timestamp parent) / 1000
                  <= (Timestamp second - Timestamp parent) / 1000)
    by (apply Z.div_le_mono; lia).
  assert (0 <= (Timestamp first - Timestamp parent) / 1000) by (apply Z.div_pos; lia).
  unfold CalculateScore.
  destruct (Z.leb_spec (Timestamp first) (Timestamp parent)); [lia |].
  destruct (Z.leb_spec (Timestamp second) (Timestamp parent)); [lia |].
  rewrite !TimeBetweenBlocks_seconds by (unfold is_uint64; lia).
  rewrite !uint64_small by (unfold is_uint64; lia). lia.
Qed.

End ScoreOrder.

(** ** More on CalculateTarget and BlockHitPredicate *)

Section TargetCoverage.
Import model chain.

Variable BlockTarget_bits : Z.
Variable ScaledSmoother : Z -> Z -> Z -> Z.

Local Abbreviation BlockTarget := (chain.BlockTarget BlockTarget_bits).
Local Abbreviation GetMultiplier := (chain.GetMultiplier BlockTarget_bits ScaledSmoother).
Local Abbreviation CalculateTarget :=
  (chain.CalculateTarget BlockTarget_bits ScaledSmoother).
Local Abbreviation CalculateTarget_blocks :=
  (chain.CalculateTarget_blocks BlockTarget_bits ScaledSmoother).

(** With smoothing off the multiplier is [2^54 << 10]. *)
Lemma GetMultiplier_smoothing_off (timeDiff : Z) (config : BlockChainConfiguration) :
  65 <= BlockTarget_bits -> BlockTimeSmoothingFactor config = 0 ->
  GetMultiplier timeDiff config = 2 ^ 64.
Proof.
  intros Hbits Hoff. unfold chain.GetMultiplier, BlockTarget_shl. rewrite Hoff. cbn [Z.eqb negb].
  assert (Hpow : 2 ^ 65 <= 2 ^ BlockTarget_bits) by (apply Z.pow_le_mono_r; lia).
  change (2 ^ 65) with 36893488147419103232 in Hpow.
  rewrite (BlockTarget_small _ Two_To_54)
    by (change Two_To_54 with 18014398509481984; lia).
  change (Z.shiftl Two_To_54 10) with (2 ^ 64).
  apply BlockTarget_small. change (2 ^ 64) with 18446744073709551616. lia.
Qed.

(** X7. [CalculateTarget] raises exactly when the total chain importance
    or the difficulty is zero, whatever the elapsed time and the importance;
    [BlockTarget] has at least the 64 bits of the two divisors. *)
Theorem CalculateTarget_raises_iff (timeSpan : utils.TimeSpan) (difficulty importance : Z)
    (config : BlockChainConfiguration) :
  64 <= BlockTarget_bits ->
  is_uint64 (TotalChainImportance config) -> is_uint64 difficulty ->
  CalculateTarget timeSpan difficulty importance config = None
  <-> TotalChainImportance config = 0 \/ difficulty = 0.
Proof.
  intros Hbits Htotal Hdiff. rewrite CalculateTarget_unfold.
  rewrite (BlockTarget_uint64 _ (TotalChainImportance config)) by assumption.
  rewrite (BlockTarget_uint64 _ difficulty) by assumption.
  unfold BlockTarget_div.
  destruct (Z.eqb_spec (TotalChainImportance config) 0) as [Et | Et];
    destruct (Z.eqb_spec difficulty 0) as [Ed | Ed]; split; intros H;
    try reflexivity; try discriminate; try (left; assumption); try (right; assumption).
  destruct H; contradiction.
Qed.

(** X8. When [BlockTarget] has 227 bits or more, no step of
    [CalculateTarget] wraps: for 64-bit inputs and nonzero divisors the
    target is the product of the elapsed seconds, the importance, the
    multiplier and 8999999998, divided by the total chain importance and then
    by the difficulty, each division truncating. *)
Theorem CalculateTarget_exact (timeSpan : utils.TimeSpan) (difficulty importance : Z)
    (config : BlockChainConfiguration) :
  227 <= BlockTarget_bits ->
  is_uint64 (utils.millis timeSpan) -> is_uint64 importance ->
  0 < TotalChainImportance config < 2 ^ 64 -> 0 < difficulty < 2 ^ 64 ->
  CalculateTarget timeSpan difficulty importance config
  = Some (utils.seconds timeSpan * importance
          * GetMultiplier (utils.seconds timeSpan) config * 8999999998
          / TotalChainImportance config / difficulty).
Proof.
  intros Hbits Hmillis Himp Htotal Hdiff. rewrite CalculateTarget_unfold.
  pose proof (CalculateTarget_product_fits _ ScaledSmoother timeSpan importance config
                Hbits Hmillis Himp) as Hfits.
  pose proof (GetMultiplier_nonneg BlockTarget_bits ScaledSmoother (utils.seconds timeSpan) config
                ltac:(lia)) as Hmult.
  unfold is_uint64 in *.
  assert (Hsecs : 0 <= utils.seconds timeSpan) by (apply Z.div_pos; lia).
  rewrite (BlockTarget_small _ (utils.seconds timeSpan * importance * _ * 8999999998)).
  - rewrite !BlockTarget_uint64 by (unfold is_uint64; lia).
    unfold BlockTarget_div.
    destruct (Z.eqb_spec (TotalChainImportance config) 0); [lia |].
    destruct (Z.eqb_spec difficulty 0); [lia | reflexivity].
  - split; [| exact Hfits]. repeat apply Z.mul_nonneg_nonneg; lia.
Qed.

(** X9. With a smoothing factor of 0 the target does not depend on the
    block generation target time nor on anything computed in floating point:
    when [BlockTarget] has 227 bits or more it is
    [seconds * importance * 2^64 * 8999999998 / TotalChainImportance /
    difficulty]. *)
Theorem CalculateTarget_smoothing_off (timeSpan : utils.TimeSpan) (difficulty importance : Z)
    (config : BlockChainConfiguration) :
  227 <= BlockTarget_bits -> BlockTimeSmoothingFactor config = 0 ->
  is_uint64 (utils.millis timeSpan) -> is_uint64 importance ->
  0 < TotalChainImportance config < 2 ^ 64 -> 0 < difficulty < 2 ^ 64 ->
  CalculateTarget timeSpan difficulty importance config
  = Some (utils.seconds timeSpan * importance * 2 ^ 64 * 8999999998
          / TotalChainImportance config / difficulty).
Proof.
  intros Hbits Hoff Hmillis Himp Htotal Hdiff. rewrite CalculateTarget_unfold.
  pose proof (CalculateTarget_product_fits _ ScaledSmoother timeSpan importance config
                Hbits Hmillis Himp) as Hfits.
  rewrite GetMultiplier_smoothing_off in * by (assumption || lia).
  unfold is_uint64 in *.
  assert (Hsecs : 0 <= utils.seconds timeSpan) by (apply Z.div_pos; lia).
  rewrite (BlockTarget_small _ (utils.seconds timeSpan * importance * _ * 8999999998)).
  - rewrite !BlockTarget_uint64 by (unfold is_uint64; lia).
    unfold BlockTarget_div.
    destruct (Z.eqb_spec (TotalChainImportance config) 0); [lia |].
    destruct (Z.eqb_spec difficulty 0); [lia | reflexivity].
  - split; [| exact Hfits]. repeat apply Z.mul_nonneg_nonneg; lia.
Qed.

(** X10. With a smoothing factor of 0 and a [BlockTarget] of 227 bits or
    more, the target does not decrease as the elapsed time grows. *)
Theorem CalculateTarget_monotone_in_time (earlier later : utils.TimeSpan)
    (difficulty importance : Z) (config : BlockChainConfiguration) :
  227 <= BlockTarget_bits -> BlockTimeSmoothingFactor config = 0 ->
  0 <= utils.millis earlier <= utils.millis later -> utils.millis later < 2 ^ 64 ->
  is_uint64 importance ->
  target_le (CalculateTarget earlier difficulty importance config)
            (CalculateTarget later difficulty importance config).
Proof.
  intros Hbits Hoff Horder Hmax Himp. rewrite !CalculateTarget_unfold.
  pose proof (CalculateTarget_product_fits _ ScaledSmoother later importance config
                Hbits ltac:(unfold is_uint64; lia) Himp) as Hfits.
  rewrite !GetMultiplier_smoothing_off in * by (assumption || lia).
  unfold is_uint64 in *.
  assert (Hsecs : 0 <= utils.seconds earlier <= utils.seconds later).
  { unfold utils.seconds. split; [apply Z.div_pos; lia | apply Z.div_le_mono; lia]. }
  assert (Hmono : utils.seconds earlier * importance * 2 ^ 64 * 8999999998
                  <= utils.seconds later * importance * 2 ^ 64 * 8999999998).
  { repeat apply Z.mul_le_mono_nonneg_r; lia. }
  assert (0 <= utils.seconds earlier * importance * 2 ^ 64 * 8999999998).
  { repeat apply Z.mul_nonneg_nonneg; lia. }
  rewrite (BlockTarget_small _ (utils.seconds earlier * importance * _ * 8999999998)) by lia.
  rewrite (BlockTarget_small _ (utils.seconds later * importance * _ * 8999999998)) by lia.
  pose proof (wrap_nonneg BlockTarget_bits (TotalChainImportance config) ltac:(lia)) as Htotal.
  pose proof (wrap_nonneg BlockTarget_bits difficulty ltac:(lia)) as Hdiff.
  fold (BlockTarget (TotalChainImportance config)) in Htotal.
  fold (BlockTarget difficulty) in Hdiff.
  unfold BlockTarget_div.
  destruct (Z.eqb_spec (BlockTarget (TotalChainImportance config)) 0); [exact I |].
  destruct (Z.eqb_spec (BlockTarget difficulty) 0); [exact I |].
  cbn [target_le].
  apply Z.div_le_mono; [lia |]. apply Z.div_le_mono; lia.
Qed.

Section PredicateCoverage.

Variable Log2TimesPowerOfTwo : Z -> Z -> Z.

Local Abbreviation CalculateHit := (chain.CalculateHit Log2TimesPowerOfTwo).
Local Abbreviation BlockHitPredicate :=
  (chain.BlockHitPredicate Log2TimesPowerOfTwo BlockTarget_bits ScaledSmoother).
Local Abbreviation BlockHitPredicate_context :=
  (chain.BlockHitPredicate_context Log2TimesPowerOfTwo BlockTarget_bits ScaledSmoother).

(** The context the block overload stands for. *)
Local Abbreviation context_of parent block generationHash :=
  {| ctx_Signer := Signer block;
     ctx_Height := Height block;
     ctx_ElapsedTime := TimeBetweenBlocks parent block;
     ctx_Difficulty := Difficulty block;
     ctx_GenerationHash := generationHash |}.

(** X11. For a block later than its parent, the overload of
    [BlockHitPredicate] taking the two blocks answers as the overload taking
    a [BlockHitContext] does on the block's signer, height and difficulty and
    the time between the two blocks. *)
Theorem BlockHitPredicate_overloads_agree (self : BlockHitPredicate_t)
    (parent block : Block) (generationHash : Hash256) :
  Timestamp parent < Timestamp block ->
  BlockHitPredicate self parent block generationHash
  = BlockHitPredicate_context self (context_of parent block generationHash).
Proof.
  intros Hlater. unfold chain.BlockHitPredicate, chain.BlockHitPredicate_context.
  cbn [ctx_Signer ctx_Height ctx_ElapsedTime ctx_Difficulty ctx_GenerationHash].
  unfold chain.CalculateTarget_blocks.
  destruct (Z.leb_spec (Timestamp block) (Timestamp parent)); [lia | reflexivity].
Qed.

(** X12. [BlockHitPredicate] on a [BlockHitContext] raises exactly when
    the target calculation does; otherwise it rejects every generation hash
    when the target is 0 and accepts every generation hash, the zero hash
    included, when the target is 2^64 or more. *)
Theorem BlockHitPredicate_context_by_target (self : BlockHitPredicate_t)
    (context : BlockHitContext) :
  let target :=
    CalculateTarget (ctx_ElapsedTime context) (ctx_Difficulty context)
      (m_importanceLookup self (ctx_Signer context) (ctx_Height context))
      (m_config self) in
  (target = None <-> BlockHitPredicate_context self context = None)
  /\ (target = Some 0 -> BlockHitPredicate_context self context = Some false)
  /\ (forall t, target = Some t -> 2 ^ 64 <= t ->
      BlockHitPredicate_context self context = Some true).
Proof.
  intros target. subst target. unfold chain.BlockHitPredicate_context.
  pose proof (CalculateHit_range Log2TimesPowerOfTwo (ctx_GenerationHash context)) as Hhit.
  unfold is_uint64 in Hhit.
  destruct (CalculateTarget _ _ _ _) as [t |].
  - split; [split; discriminate |]. split.
    + intros E. injection E as ->. f_equal. apply Z.ltb_ge. lia.
    + intros t' E Hlarge. injection E as <-. f_equal. apply Z.ltb_lt. lia.
  - split; [split; reflexivity |]. split; [discriminate |]. intros t' E. discriminate.
Qed.

End PredicateCoverage.

End TargetCoverage.

(** ** More on NotificationObserverAdapter *)

Section AdapterCoverage.
Import observers local.

Variables WeakEntityInfo Notification NotificationType ObserverContext Failure : Type.
Variable Notification_Type : Notification -> NotificationType.
Variable IsSet : NotificationType -> NotificationChannel -> bool.

Local Abbreviation Observer_t State :=
  (NotificationObserver Notification ObserverContext Failure State).
Local Abbreviation Adapter_t State :=
  (NotificationObserverAdapter_t WeakEntityInfo Notification ObserverContext Failure State).
Local Abbreviation NotificationObserverAdapter_notify :=
  (local.NotificationObserverAdapter_notify Notification_Type IsSet).
Local Abbreviation calls_of_notify := (local.calls_of_notify Notification_Type IsSet).
Local Abbreviation on_observer_channel :=
  (filter (fun notification => IsSet (Notification_Type notification) Observer)).

Lemma adapter_notify_observes (State : Type) (self : Adapter_t State)
    (entityInfo : WeakEntityInfo) (context : ObserverContext) (s : State) :
  NotificationObserverAdapter_notify self entityInfo context s
  = observe (m_pObserver self) context
      (on_observer_channel (notifications_of (m_pPub self) entityInfo)) s.
Proof.
  unfold local.NotificationObserverAdapter_notify, publish, as_subscriber.
  cbn [subscriber_notify]. apply publish_filters.
Qed.

Lemma calls_of_notify_observes (State : Type) (observer : Observer_t State)
    (publisher : NotificationPublisher WeakEntityInfo Notification)
    (entityInfo : WeakEntityInfo) (context : ObserverContext) (s : State) :
  calls_of_notify observer publisher entityInfo context s
  = snd (fst (observe (recording observer) context
                (on_observer_channel (notifications_of publisher entityInfo)) (s, []))).
Proof.
  unfold local.calls_of_notify. rewrite adapter_notify_observes. reflexivity.
Qed.

(** What a recording observer has logged is the log it started with and
    the first notifications it was handed. *)
Lemma observe_recording_prefix (State : Type) (observer : Observer_t State)
    (context : ObserverContext) (delivered log : list Notification) (s : State) :
  exists rest,
    snd (fst (observe (recording observer) context delivered (s, log))) ++ rest
    = log ++ delivered.
Proof.
  revert s log. induction delivered as [|notification rest IH]; intros s log.
  - exists []. reflexivity.
  - unfold local.observe in *. cbn [for_each]. unfold and_then.
    rewrite notify_recording.
    destruct (notify observer notification context s) as [s1 [|failure]].
    + destruct (IH s1 (log ++ [notification])) as [rest' Hrest].
      exists rest'. rewrite Hrest, <- app_assoc. reflexivity.
    + exists rest. cbn [fst snd]. rewrite <- app_assoc. reflexivity.
Qed.

Lemma observe_never_raises (State : Type) (observer : Observer_t State)
    (context : ObserverContext) (delivered : list Notification) (s : State) :
  (forall notification s', snd (notify observer notification context s') = Returned) ->
  snd (observe observer context delivered s) = Returned.
Proof.
  intros Hreturns. revert s. induction delivered as [|notification rest IH]; intros s.
  - reflexivity.
  - unfold local.observe in *. cbn [for_each]. unfold and_then.
    pose proof (Hreturns notification s) as Hfirst.
    destruct (notify observer notification context s) as [s1 outcome].
    cbn [snd] in Hfirst. subst outcome. apply IH.
Qed.

(** X13. Whatever the observer does, the notifications the adapter's
    [notify] calls it with are the first ones of the published notifications
    of the Observer channel, in their order: never one of another channel,
    never one twice, never one ahead of its turn. *)
Theorem NotificationObserverAdapter_notify_calls_prefix (State : Type)
    (observer : Observer_t State)
    (publisher : NotificationPublisher WeakEntityInfo Notification)
    (entityInfo : WeakEntityInfo) (context : ObserverContext) (s : State) :
  exists rest,
    calls_of_notify observer publisher entityInfo context s ++ rest
    = on_observer_channel (notifications_of publisher entityInfo).
Proof.
  rewrite calls_of_notify_observes.
  apply (observe_recording_prefix State observer context _ [] s).
Qed.

(** X14. The adapter's [notify] depends on the publication only through
    its notifications of the Observer channel: two publications that agree on
    them have the same effect and outcome, whatever they raise on other
    channels. *)
Theorem NotificationObserverAdapter_notify_ignores_other_channels (State : Type)
    (self other : Adapter_t State) (entityInfo otherInfo : WeakEntityInfo)
    (context : ObserverContext) (s : State) :
  m_pObserver self = m_pObserver other ->
  on_observer_channel (notifications_of (m_pPub self) entityInfo)
  = on_observer_channel (notifications_of (m_pPub other) otherInfo) ->
  NotificationObserverAdapter_notify self entityInfo context s
  = NotificationObserverAdapter_notify other otherInfo context s.
Proof.
  intros Hobserver Hsame. rewrite !adapter_notify_observes, Hobserver, Hsame. reflexivity.
Qed.

(** X15. When no published notification is of the Observer channel, the
    adapter's [notify] returns with the state untouched and without calling
    its observer. *)
Theorem NotificationObserverAdapter_notify_nothing_to_observe (State : Type)
    (self : Adapter_t State) (entityInfo : WeakEntityInfo) (context : ObserverContext)
    (s : State) :
  (forall notification,
      In notification (notifications_of (m_pPub self) entityInfo) ->
      IsSet (Notification_Type notification) Observer = false) ->
  NotificationObserverAdapter_notify self entityInfo context s = (s, Returned)
  /\ calls_of_notify (m_pObserver self) (m_pPub self) entityInfo context s = [].
Proof.
  intros Hnone.
  assert (Hempty : on_observer_channel (notifications_of (m_pPub self) entityInfo) = []).
  { induction (notifications_of (m_pPub self) entityInfo) as [|notification rest IH].
    - reflexivity.
    - cbn [filter]. rewrite (Hnone notification) by (left; reflexivity).
      apply IH. intros other Hin. apply Hnone. right. exact Hin. }
  split.
  - rewrite adapter_notify_observes, Hempty. reflexivity.
  - rewrite calls_of_notify_observes, Hempty. reflexivity.
Qed.

(** X16. The adapter raises no failure of its own: with an observer that
    never raises, its [notify] returns, having called the observer with every
    published notification of the Observer channel. *)
Theorem NotificationObserverAdapter_notify_returns (State : Type)
    (self : Adapter_t State) (entityInfo : WeakEntityInfo) (context : ObserverContext)
    (s : State) :
  (forall notification s',
      snd (notify (m_pObserver self) notification context s') = Returned) ->
  snd (NotificationObserverAdapter_notify self entityInfo context s) = Returned
  /\ calls_of_notify (m_pObserver self) (m_pPub self) entityInfo context s
     = on_observer_channel (notifications_of (m_pPub self) entityInfo).
Proof.
  intros Hreturns.
  pose proof (observe_never_raises State (m_pObserver self) context
                (on_observer_channel (notifications_of (m_pPub self) entityInfo)) s
                Hreturns) as Hruns.
  split.
  - rewrite adapter_notify_observes. exact Hruns.
  - rewrite calls_of_notify_observes.
    destruct (observe (m_pObserver self) context
                (on_observer_channel (notifications_of (m_pPub self) entityInfo)) s)
      as [s' outcome] eqn:Hobserve.
    cbn [snd] in Hruns. subst outcome.
    rewrite (observe_recording_returned _ _ _ _ _ _ _ [] _ _ Hobserve). reflexivity.
Qed.

End AdapterCoverage.

(** ** Account link validation results *)

(** X17. No two account link validation results share a code. *)
Theorem AccountLinkResult_codes_distinct (first second : validators.AccountLinkResult) :
  validators.code first = validators.code second <-> first = second.
Proof.
  split.
  - destruct first, second; intros Hcode; first [reflexivity | discriminate Hcode].
  - intros ->. reflexivity.
Qed.

(** ** The further properties on concrete inputs *)

(** The same window behind three and behind nineteen leading zero bits. *)
Lemma CalculateHit_antitone_in_value_witness :
  chain.CalculateHit utils.Log2TimesPowerOfTwo examples.sample_hash
  <= chain.CalculateHit utils.Log2TimesPowerOfTwo samples.deep_hash.
Proof.
  apply (CalculateHit_antitone_in_value utils.Log2TimesPowerOfTwo
           samples.deep_hash examples.sample_hash);
    by_evaluation.
Defined.

(** A hash whose first set bit lies in its last two bytes. *)
Lemma CalculateHit_below_2_62_witness :
  0 <= chain.CalculateHit utils.Log2TimesPowerOfTwo samples.tail_hash < 2 ^ 62.
Proof.
  apply (CalculateHit_below_2_62 utils.Log2TimesPowerOfTwo samples.tail_hash); by_evaluation.
Defined.

(** Five and fifteen seconds after the same parent. *)
Lemma CalculateScore_monotone_witness :
  chain.CalculateScore examples.parent_block examples.child_block
  <= chain.CalculateScore examples.parent_block samples.early_block.
Proof.
  apply (CalculateScore_monotone examples.parent_block samples.early_block
           examples.child_block); by_evaluation.
Defined.

(** A configuration without total chain importance. *)
Lemma CalculateTarget_raises_iff_witness :
  chain.CalculateTarget 128 examples.unused_smoother (utils.FromMilliseconds 15000)
    100000000000000 1000 examples.config_without_importance
  = None.
Proof.
  apply (proj2 (CalculateTarget_raises_iff 128 examples.unused_smoother
                  (utils.FromMilliseconds 15000) 100000000000000 1000
                  examples.config_without_importance
                  ltac:(by_evaluation) ltac:(by_evaluation) ltac:(by_evaluation))).
  left. reflexivity.
Defined.

(** An importance of 2^31 on a 256-bit target. *)
Lemma CalculateTarget_exact_witness :
  chain.CalculateTarget 256 examples.unused_smoother (utils.FromMilliseconds 15000)
    100000000000000 (2 ^ 31) examples.config
  = Some 5942112188.
Proof.
  rewrite (CalculateTarget_exact 256 examples.unused_smoother (utils.FromMilliseconds 15000)
             100000000000000 (2 ^ 31) examples.config);
    by_evaluation.
Defined.

(** The same target under a target time of one minute as under one of
    fifteen seconds. *)
Lemma CalculateTarget_smoothing_off_witness :
  chain.CalculateTarget 256 examples.unused_smoother (utils.FromMilliseconds 15000)
    100000000000000 1000 samples.slow_config
  = Some 2767.
Proof.
  rewrite (CalculateTarget_smoothing_off 256 examples.unused_smoother
             (utils.FromMilliseconds 15000) 100000000000000 1000 samples.slow_config);
    by_evaluation.
Defined.

(** Five seconds against fifteen. *)
Lemma CalculateTarget_monotone_in_time_witness :
  chain.target_le
    (chain.CalculateTarget 256 examples.unused_smoother (utils.FromMilliseconds 5000)
       100000000000000 1000 examples.config)
    (chain.CalculateTarget 256 examples.unused_smoother (utils.FromMilliseconds 15000)
       100000000000000 1000 examples.config).
Proof.
  apply (CalculateTarget_monotone_in_time 256 examples.unused_smoother
           (utils.FromMilliseconds 5000) (utils.FromMilliseconds 15000)
           100000000000000 1000 examples.config);
    by_evaluation.
Defined.

(** The two overloads on a block fifteen seconds after its parent. *)
Lemma BlockHitPredicate_overloads_agree_witness :
  chain.BlockHitPredicate utils.Log2TimesPowerOfTwo 256 examples.unused_smoother
    (examples.predicate examples.config 1000)
    examples.parent_block examples.child_block examples.sample_hash
  = chain.BlockHitPredicate_context utils.Log2TimesPowerOfTwo 256 examples.unused_smoother
      (examples.predicate examples.config 1000)
      {| chain.ctx_Signer := [];
         chain.ctx_Height := 2;
         chain.ctx_ElapsedTime := utils.FromMilliseconds 15000;
         chain.ctx_Difficulty := 100000000000000;
         chain.ctx_GenerationHash := examples.sample_hash |}.
Proof.
  apply (BlockHitPredicate_overloads_agree 256 examples.unused_smoother
           utils.Log2TimesPowerOfTwo (examples.predicate examples.config 1000)
           examples.parent_block examples.child_block examples.sample_hash).
  by_evaluation.
Defined.

(** The publication N4, N1, N2, N4, N3 against the publication N1, N2, N3. *)
Lemma NotificationObserverAdapter_notify_ignores_other_channels_witness :
  local.NotificationObserverAdapter_notify fst examples.IsSet
    {| local.m_pObserver := examples.failing_observer;
       local.m_pPub := samples.chatty_publisher |} tt tt 0%nat
  = local.NotificationObserverAdapter_notify fst examples.IsSet
      {| local.m_pObserver := examples.failing_observer;
         local.m_pPub := examples.publisher |} tt tt 0%nat.
Proof.
  apply (NotificationObserverAdapter_notify_ignores_other_channels
           unit examples.Notification Z unit string fst examples.IsSet nat);
    reflexivity.
Defined.

(** A publication on the Validator channel only, to an observer that
    would raise. *)
Lemma NotificationObserverAdapter_notify_nothing_to_observe_witness :
  local.NotificationObserverAdapter_notify fst examples.IsSet
    {| local.m_pObserver := examples.failing_observer;
       local.m_pPub := samples.validator_publisher |} tt tt 0%nat
  = (0%nat, observers.Returned)
  /\ local.calls_of_notify fst examples.IsSet
       examples.failing_observer samples.validator_publisher tt tt 0%nat
     = [].
Proof.
  apply (NotificationObserverAdapter_notify_nothing_to_observe
           unit examples.Notification Z unit string fst examples.IsSet nat
           {| local.m_pObserver := examples.failing_observer;
              local.m_pPub := samples.validator_publisher |} tt tt 0%nat).
  intros notification [<- | [<- | []]]; reflexivity.
Defined.

(** The counting observer on the publication N4, N1, N2, N4, N3. *)
Lemma NotificationObserverAdapter_notify_returns_witness :
  snd (local.NotificationObserverAdapter_notify fst examples.IsSet
         {| local.m_pObserver := examples.counting_observer;
            local.m_pPub := samples.chatty_publisher |} tt tt 0%nat)
  = observers.Returned
  /\ local.calls_of_notify fst examples.IsSet
       examples.counting_observer samples.chatty_publisher tt tt 0%nat
     = [examples.N2; examples.N3].
Proof.
  apply (NotificationObserverAdapter_notify_returns
           unit examples.Notification Z unit string fst examples.IsSet nat
           {| local.m_pObserver := examples.counting_observer;
              local.m_pPub := samples.chatty_publisher |} tt tt 0%nat).
  intros notification s'. reflexivity.
Defined.

(** ** GetMultiplier *)

Section MultiplierCoverage.
Import model chain.

Variable BlockTarget_bits : Z.
Variable ScaledSmoother : Z -> Z -> Z -> Z.

Local Abbreviation GetMultiplier := (chain.GetMultiplier BlockTarget_bits ScaledSmoother).

(** X18. In a [BlockTarget] of 74 bits or more the shift of
    [GetMultiplier] loses no bit: the multiplier is 1024 times the 64-bit
    value the smoother was converted to, hence below 2^74 whatever the
    floating-point computation gave, and it is exactly 2^64 when the
    smoothing factor is 0, whatever the elapsed time and the target time. *)
Theorem GetMultiplier_shift_exact (timeDiff : Z) (config : BlockChainConfiguration) :
  74 <= BlockTarget_bits ->
  GetMultiplier timeDiff config
  = 1024 * (if negb (0 =? BlockTimeSmoothingFactor config)
            then uint64 (ScaledSmoother (BlockTimeSmoothingFactor config) timeDiff
                           (utils.seconds (BlockGenerationTargetTime config)))
            else 2 ^ 54)
  /\ 0 <= GetMultiplier timeDiff config < 2 ^ 74
  /\ (BlockTimeSmoothingFactor config = 0 -> GetMultiplier timeDiff config = 2 ^ 64).
Proof.
  intros Hbits.
  assert (Hpow : 2 ^ 74 <= 2 ^ BlockTarget_bits) by (apply Z.pow_le_mono_r; lia).
  change (2 ^ 74) with 18889465931478580854784 in *.
  assert (Hvalue : GetMultiplier timeDiff config
                   = 1024 * (if negb (0 =? BlockTimeSmoothingFactor config)
                             then uint64 (ScaledSmoother (BlockTimeSmoothingFactor config)
                                            timeDiff
                                            (utils.seconds (BlockGenerationTargetTime config)))
                             else 2 ^ 54)
                     /\ 0 <= GetMultiplier timeDiff config < 18889465931478580854784).
  { unfold chain.GetMultiplier, BlockTarget_shl. change Two_To_54 with (2 ^ 54).
    set (scaled := if negb (0 =? BlockTimeSmoothingFactor config) then _ else _).
    assert (Hscaled : 0 <= scaled < 2 ^ 64).
    { subst scaled. destruct (negb (0 =? BlockTimeSmoothingFactor config)).
      - apply uint64_range.
      - change (2 ^ 54) with 18014398509481984.
        change (2 ^ 64) with 18446744073709551616. lia. }
    change (2 ^ 64) with 18446744073709551616 in Hscaled.
    rewrite (BlockTarget_small _ scaled) by lia.
    rewrite Z.shiftl_mul_pow2 by lia. change (2 ^ 10) with 1024.
    rewrite BlockTarget_small by lia. lia. }
  destruct Hvalue as [Hvalue Hrange].
  split; [exact Hvalue |]. split; [exact Hrange |].
  intros Hoff. rewrite Hvalue, Hoff. reflexivity.
Qed.

End MultiplierCoverage.

(** Sixty seconds against a target time of fifteen with a smoothing factor
    of 3000: the smoother is capped at 100.0, that is [100 * 2^54] once
    scaled; and smoothing off. *)
Lemma GetMultiplier_shift_exact_witness :
  chain.GetMultiplier 128 (fun _ _ _ => 100 * 2 ^ 54) 60
    {| model.BlockGenerationTargetTime := utils.FromMilliseconds 15000;
       model.BlockTimeSmoothingFactor := 3000;
       model.TotalChainImportance := 8999999998000000 |}
  = 100 * 2 ^ 64
  /\ chain.GetMultiplier 128 examples.unused_smoother 15 examples.config = 2 ^ 64.
Proof.
  split.
  - rewrite (proj1 (GetMultiplier_shift_exact 128 (fun _ _ _ => 100 * 2 ^ 54) 60 _
                      ltac:(by_evaluation))).
    by_evaluation.
  - apply (proj2 (proj2 (GetMultiplier_shift_exact 128 examples.unused_smoother 15
                           examples.config ltac:(by_evaluation)))).
    reflexivity.
Defined.

(** ** BlockHitPredicate for a signer without importance *)

Section IneligibleSigner.
Import model chain.

Variable BlockTarget_bits : Z.
Variable ScaledSmoother : Z -> Z -> Z -> Z.
Variable Log2TimesPowerOfTwo : Z -> Z -> Z.

Local Abbreviation BlockHitPredicate_context :=
  (chain.BlockHitPredicate_context Log2TimesPowerOfTwo BlockTarget_bits ScaledSmoother).

(** X19. On a [BlockHitContext] whose signer the lookup gives importance
    0, [BlockHitPredicate] raises when the total chain importance or the
    context's difficulty is zero, and otherwise returns false, whatever the
    generation hash and the elapsed time. *)
Theorem BlockHitPredicate_context_without_importance (self : BlockHitPredicate_t)
    (context : BlockHitContext) :
  64 <= BlockTarget_bits ->
  m_importanceLookup self (ctx_Signer context) (ctx_Height context) = 0 ->
  is_uint64 (TotalChainImportance (m_config self)) ->
  is_uint64 (ctx_Difficulty context) ->
  BlockHitPredicate_context self context
  = if (TotalChainImportance (m_config self) =? 0) || (ctx_Difficulty context =? 0)
    then None
    else Some false.
Proof.
  intros Hbits Hlookup Htotal Hdiff. unfold is_uint64 in *.
  destruct (Z.eqb_spec (TotalChainImportance (m_config self)) 0) as [Et | Et];
    [| destruct (Z.eqb_spec (ctx_Difficulty context) 0) as [Ed | Ed]]; cbn [orb].
  - unfold chain.BlockHitPredicate_context.
    rewrite CalculateTarget_unfold, Et, BlockTarget_zero. reflexivity.
  - unfold chain.BlockHitPredicate_context.
    rewrite CalculateTarget_unfold, Ed, BlockTarget_zero.
    unfold BlockTarget_div at 1.
    destruct (chain.BlockTarget BlockTarget_bits (TotalChainImportance (m_config self)) =? 0);
      reflexivity.
  - apply BlockHitPredicate_context_rejects_zero_importance; try assumption; lia.
Qed.

End IneligibleSigner.

(** A context of a signer without importance, under a configuration with
    and under one without total chain importance. *)
Lemma BlockHitPredicate_context_without_importance_witness :
  chain.BlockHitPredicate_context utils.Log2TimesPowerOfTwo 256 examples.unused_smoother
    (examples.predicate examples.config 0)
    {| chain.ctx_Signer := [];
       chain.ctx_Height := 2;
       chain.ctx_ElapsedTime := utils.FromMilliseconds 15000;
       chain.ctx_Difficulty := 100000000000000;
       chain.ctx_GenerationHash := examples.ones_hash |}
  = Some false
  /\ chain.BlockHitPredicate_context utils.Log2TimesPowerOfTwo 256 examples.unused_smoother
       (examples.predicate examples.config_without_importance 0)
       {| chain.ctx_Signer := [];
          chain.ctx_Height := 2;
          chain.ctx_ElapsedTime := utils.FromMilliseconds 15000;
          chain.ctx_Difficulty := 100000000000000;
          chain.ctx_GenerationHash := examples.ones_hash |}
     = None.
Proof.
  split.
  - rewrite (BlockHitPredicate_context_without_importance 256 examples.unused_smoother
               utils.Log2TimesPowerOfTwo);
      by_evaluation.
  - rewrite (BlockHitPredicate_context_without_importance 256 examples.unused_smoother
               utils.Log2TimesPowerOfTwo);
      by_evaluation.
Defined.
